(** * File_Organizer_Bot: a shallow embedding of [organizer.py]

  The development follows [src/organizer.py]: the rule matcher, the date
  bucketing, the conflict resolver and the per-file / per-directory drivers
  of [FileOrganizer].  The Python standard library calls the class relies on
  ([str] methods, [pathlib], [datetime], [os], [shutil]) are modelled in the
  first modules, restricted to what [organizer.py] uses; the methods of
  [FileOrganizer] are then translated one by one over a small
  state-and-exception monad whose state is the file system, the log and the
  clock. *)

From Stdlib Require Import ZArith String Ascii List Bool Lia.
From stdpp Require Import base option list strings gmap.

Open Scope string_scope.
Open Scope list_scope.
Open Scope Z_scope.

(* ===================================================================== *)
(** ** Python [str] methods used by the organizer                         *)
(* ===================================================================== *)

(** A [str] is represented by its UTF-8 encoding.  Prefix and substring
    tests, splitting at an ASCII character, slicing at the position of an
    ASCII character and [replace] give on the encoding what they give on
    the characters, no character's encoding occurring inside or across
    those of others.  The case mappings are another matter: they follow
    the Unicode character database, which is not reproduced here. *)

Module PyStr.

(** [s.lower()] and [s.upper()], as an interface: what is proved of the
    organizer for every [Casing] holds for the mappings of Python. *)
Class Casing := mkCasing {
  lower : string -> string;
  upper : string -> string
}.

(** The two mappings on ASCII text, where Python folds the letters A to Z
    and a to z and nothing else. *)
Definition lower_char (c : ascii) : ascii :=
  let n := N_of_ascii c in
  if ((65 <=? n) && (n <=? 90))%N then ascii_of_N (n + 32) else c.

Definition upper_char (c : ascii) : ascii :=
  let n := N_of_ascii c in
  if ((97 <=? n) && (n <=? 122))%N then ascii_of_N (n - 32) else c.

Fixpoint ascii_lower (s : string) : string :=
  match s with
  | EmptyString => EmptyString
  | String c s' => String (lower_char c) (ascii_lower s')
  end.

Fixpoint ascii_upper (s : string) : string :=
  match s with
  | EmptyString => EmptyString
  | String c s' => String (upper_char c) (ascii_upper s')
  end.

(** The instance the concrete runs are evaluated with; their file names
    and patterns are ASCII text. *)
#[global] Instance ascii_casing : Casing :=
  {| lower := ascii_lower; upper := ascii_upper |}.

(** The two mappings on text whose characters are below U+0100.  Such a
    character is encoded as one byte below 128, or as the byte 194 or 195
    followed by a byte from 128 to 191.  To lower case, the letters from
    U+00C0 to U+00DE, but for the sign U+00D7, move up by 32.  To upper
    case, the letters from U+00E0 to U+00FE, but for the sign U+00F7, move
    down by 32; U+00DF becomes the two letters SS, U+00FF becomes U+0178
    and U+00B5 becomes U+039C. *)
Fixpoint latin1_lower_from (lead : bool) (s : string) : string :=
  match s with
  | EmptyString => EmptyString
  | String c s' =>
      let n := N_of_ascii c in
      String (if lead && (128 <=? n) && (n <=? 158) && negb (n =? 151)
              then ascii_of_N (n + 32) else lower_char c)%N
             (latin1_lower_from (n =? 195)%N s')
  end.

Definition latin1_lower (s : string) : string := latin1_lower_from false s.

Definition two_bytes (a b : N) (rest : string) : string :=
  String (ascii_of_N a) (String (ascii_of_N b) rest).

(** [lead] is the first byte of a two-byte encoding, read and not yet
    written. *)
Fixpoint latin1_upper_from (lead : option ascii) (s : string) : string :=
  match s, lead with
  | EmptyString, None => EmptyString
  | EmptyString, Some l => String l EmptyString
  | String c s', None =>
      let n := N_of_ascii c in
      if ((n =? 194) || (n =? 195))%N then latin1_upper_from (Some c) s'
      else String (upper_char c) (latin1_upper_from None s')
  | String c s', Some l =>
      let n := N_of_ascii c in
      let m := N_of_ascii l in
      let rest := latin1_upper_from None s' in
      if ((m =? 194) && (n =? 181))%N then two_bytes 206 156 rest
      else if ((m =? 195) && (n =? 159))%N then String "S" (String "S" rest)
      else if ((m =? 195) && (n =? 191))%N then two_bytes 197 184 rest
      else if ((m =? 195) && (160 <=? n) && (n <=? 190) && negb (n =? 183))%N
           then two_bytes 195 (n - 32) rest
      else String l (String c rest)
  end.

Definition latin1_upper (s : string) : string := latin1_upper_from None s.

Definition latin1_casing : Casing :=
  {| lower := latin1_lower; upper := latin1_upper |}.

(** [s.startswith(p)] *)
Definition startswith (s p : string) : bool := String.prefix p s.

(** [p in s] on strings: [p] occurs as a (contiguous) substring of [s]. *)
Fixpoint contains (s p : string) : bool :=
  String.prefix p s ||
  match s with
  | EmptyString => false
  | String _ s' => contains s' p
  end.

(** [x in l] on a list of strings *)
Definition mem (x : string) (l : list string) : bool :=
  existsb (String.eqb x) l.

(** [s[:n]] and [s[n:]] for [n >= 0] *)
Fixpoint take (n : nat) (s : string) : string :=
  match n, s with
  | S n', String c s' => String c (take n' s')
  | _, _ => EmptyString
  end.

Fixpoint drop (n : nat) (s : string) : string :=
  match n, s with
  | S n', String _ s' => drop n' s'
  | _, _ => s
  end.

(** [s.rfind(c)]: index of the last occurrence of the character [c];
    [None] stands for Python's [-1]. *)
Fixpoint rfind (s : string) (c : ascii) : option nat :=
  match s with
  | EmptyString => None
  | String a s' =>
      match rfind s' c with
      | Some i => Some (S i)
      | None => if Ascii.eqb a c then Some O else None
      end
  end.

(** [s.replace(old, new)] for a non-empty [old]: every non-overlapping
    occurrence, scanning left to right.  [skip] counts the characters of
    an occurrence already replaced that are still to be dropped. *)
Fixpoint replace_from (skip : nat) (old new s : string) : string :=
  match s with
  | EmptyString => EmptyString
  | String c s' =>
      match skip with
      | S k => replace_from k old new s'
      | O =>
          if String.prefix old s
          then new +:+ replace_from (Nat.pred (String.length old)) old new s'
          else String c (replace_from O old new s')
      end
  end.

Definition replace (s old new : string) : string := replace_from O old new s.

(** [s.split(c)[0]]: what precedes the first [c] (all of [s] if none). *)
Fixpoint split_head (s : string) (c : ascii) : string :=
  match s with
  | EmptyString => EmptyString
  | String a s' => if Ascii.eqb a c then EmptyString else String a (split_head s' c)
  end.

(** [s.split(c)] *)
Fixpoint split_on (cur s : string) (c : ascii) : list string :=
  match s with
  | EmptyString => [cur]
  | String a s' =>
      if Ascii.eqb a c then cur :: split_on EmptyString s' c
      else split_on (cur +:+ String a EmptyString) s' c
  end.

Definition split (s : string) (c : ascii) : list string := split_on EmptyString s c.

(** Truthiness of a string: non-empty. *)
Definition truthy (s : string) : bool :=
  match s with EmptyString => false | _ => true end.

End PyStr.

(* ===================================================================== *)
(** ** [pathlib.Path] and [os.path.join] (POSIX flavour)                  *)
(* ===================================================================== *)

Module PyPath.

(** A path is its tuple of [parts]; an absolute path starts with the
    part ["/"]. *)
Definition Path := list string.

Definition keep_part (s : string) : bool :=
  negb (String.eqb s "") && negb (String.eqb s ".").

(** [Path(s)]: split on the separator, drop empty and ["."] parts. *)
Definition parse (s : string) : Path :=
  (if PyStr.startswith s "/" then ["/"] else []) ++
  List.filter keep_part (PyStr.split s "/").

(** [p / s]: an absolute right operand replaces the left one. *)
Definition joinpath (p : Path) (s : string) : Path :=
  if PyStr.startswith s "/" then parse s else p ++ parse s.

(** [p.name]: the final part. *)
Definition name (p : Path) : string := List.last p "".

(** [p.parent] *)
Definition parent (p : Path) : Path := List.removelast p.

(** [p.with_name(n)] *)
Definition with_name (p : Path) (n : string) : Path := parent p ++ [n].

(** The suffix and the stem of a file name: with [i = name.rfind(".")],
    the suffix is [name[i:]] when [0 < i < len(name) - 1] and empty
    otherwise; the stem is the rest. *)
Definition has_suffix_at (n : string) (i : nat) : bool :=
  (0 <? i)%nat && (i <? String.length n - 1)%nat.

Definition suffix_of (n : string) : string :=
  match PyStr.rfind n "." with
  | Some i => if has_suffix_at n i then PyStr.drop i n else ""
  | None => ""
  end.

Definition stem_of (n : string) : string :=
  match PyStr.rfind n "." with
  | Some i => if has_suffix_at n i then PyStr.take i n else n
  | None => n
  end.

Definition suffix (p : Path) : string := suffix_of (name p).
Definition stem (p : Path) : string := stem_of (name p).

(** [os.path.join(a, b)] on strings. *)
Definition os_path_join (a b : string) : string :=
  if PyStr.startswith b "/" then b
  else if negb (PyStr.truthy a) || PyStr.startswith (String.rev a) "/" then a +:+ b
  else a +:+ "/" +:+ b.

(** All non-empty prefixes of a path, shortest first: the chain of
    directories [mkdir(parents=True)] walks. *)
Fixpoint prefixes_from (acc p : Path) : list Path :=
  match p with
  | [] => []
  | x :: p' => (acc ++ [x]) :: prefixes_from (acc ++ [x]) p'
  end.

Definition prefixes (p : Path) : list Path := prefixes_from [] p.

End PyPath.

(* ===================================================================== *)
(** ** [datetime]: naive date-times, differences in days, [strftime]      *)
(* ===================================================================== *)

Module PyTime.

Record datetime := mkdt {
  year : Z; month : Z; day : Z;
  hour : Z; minute : Z; second : Z; microsecond : Z
}.

Definition is_leap (y : Z) : bool :=
  (y mod 4 =? 0) && (negb (y mod 100 =? 0) || (y mod 400 =? 0)).

Definition days_before_year (y : Z) : Z :=
  let y1 := y - 1 in y1 * 365 + y1 / 4 - y1 / 100 + y1 / 400.

Definition days_in_month (y m : Z) : Z :=
  if m =? 2 then (if is_leap y then 29 else 28)
  else if (m =? 4) || (m =? 6) || (m =? 9) || (m =? 11) then 30 else 31.

Fixpoint days_before_month_n (y : Z) (m : nat) : Z :=
  match m with
  | O => 0
  | S m' => days_before_month_n y m' + days_in_month y (Z.of_nat m)
  end.

Definition days_before_month (y m : Z) : Z :=
  days_before_month_n y (Z.to_nat (m - 1)).

(** [d.toordinal()]: proleptic Gregorian ordinal, 0001-01-01 is day 1. *)
Definition toordinal (d : datetime) : Z :=
  days_before_year (year d) + days_before_month (year d) (month d) + day d.

Definition seconds_of_day (d : datetime) : Z :=
  hour d * 3600 + minute d * 60 + second d.

(** [(a - b).days]: the difference is normalised so that the seconds and
    microseconds are non-negative, i.e. the days are the floor. *)
Definition days_between (a b : datetime) : Z :=
  let us := ((toordinal a - toordinal b) * 86400
             + (seconds_of_day a - seconds_of_day b)) * 1000000
            + (microsecond a - microsecond b) in
  us / 86400000000.

Definition digit (n : Z) : ascii := ascii_of_N (48 + Z.to_N (n mod 10)).

(** The last [w] decimal digits of [n], zero padded. *)
Fixpoint zpad (w : nat) (n : Z) : string :=
  match w with
  | O => ""
  | S w' => zpad w' (n / 10) +:+ String (digit n) ""
  end.

(** The [strftime] directives the organizer uses.  [%Y] is the year in
    decimal, which the C library does not pad: four digits from the year
    1000 on, fewer before.  The others are padded to two digits. *)
Definition fmt_Y (d : datetime) : string :=
  let y := year d in
  if y <? 10 then zpad 1 y
  else if y <? 100 then zpad 2 y
  else if y <? 1000 then zpad 3 y
  else zpad 4 y.
Definition fmt_m (d : datetime) : string := zpad 2 (month d).
Definition fmt_d (d : datetime) : string := zpad 2 (day d).
Definition fmt_H (d : datetime) : string := zpad 2 (hour d).
Definition fmt_M (d : datetime) : string := zpad 2 (minute d).
Definition fmt_S (d : datetime) : string := zpad 2 (second d).

(** [d.strftime("%Y%m%d_%H%M%S")] *)
Definition stamp (d : datetime) : string :=
  fmt_Y d +:+ fmt_m d +:+ fmt_d d +:+ "_" +:+ fmt_H d +:+ fmt_M d +:+ fmt_S d.

(** The years a [datetime] object can hold, [MINYEAR] to [MAXYEAR]. *)
Definition MINYEAR : Z := 1.
Definition MAXYEAR : Z := 9999.

Definition year_ok (d : datetime) : bool :=
  (MINYEAR <=? year d) && (year d <=? MAXYEAR).

(** The years the C library can break a time stamp down to: [struct tm]
    keeps the year, counted from 1900, in an [int]. *)
Definition tm_ok (d : datetime) : bool :=
  (-2147483648 <=? year d - 1900) && (year d - 1900 <=? 2147483647).

(** A date-time a clock can show (four-digit year). *)
Definition valid (d : datetime) : bool :=
  (1000 <=? year d) && (year d <=? 9999) &&
  (1 <=? month d) && (month d <=? 12) &&
  (1 <=? day d) && (day d <=? days_in_month (year d) (month d)) &&
  (0 <=? hour d) && (hour d <=? 23) &&
  (0 <=? minute d) && (minute d <=? 59) &&
  (0 <=? second d) && (second d <=? 59) &&
  (0 <=? microsecond d) && (microsecond d <=? 999999).

End PyTime.

(* ===================================================================== *)
(** ** The world the organizer runs in: file system, log, clock           *)
(* ===================================================================== *)

Module Eff.
Import PyPath PyTime.

(** The exceptions the modelled calls raise.  All but [ValueError] are
    [OSError]s in Python: the five named subclasses, [shutil.Error], and
    [OSError] itself for a failure that has no subclass of its own. *)
Inductive exn :=
| FileNotFoundError | FileExistsError | NotADirectoryError
| IsADirectoryError | PermissionError | ShutilError
| OSError | ValueError.

Definition is_OSError (e : exn) : bool :=
  match e with
  | ValueError => false
  | _ => true
  end.

(** A regular file carries its modification time and whether another
    process holds it (so that opening it fails); a directory carries its
    modification time.  The modification time is kept as the local time
    the file's time stamp stands for, whatever its year. *)
Inductive node :=
| File (mtime : datetime) (locked : bool)
| Dir (mtime : datetime).

Definition node_mtime (n : node) : datetime :=
  match n with File t _ => t | Dir t => t end.

Definition node_is_dir (n : node) : bool :=
  match n with Dir _ => true | File _ _ => false end.

Inductive level := INFO | WARNING | ERROR.

(** The messages [organizer.py] logs, with the values its f-strings
    interpolate. *)
Inductive message :=
| MsgNoStats (p : Path)
| MsgLocked (p : Path)
| MsgSkipping (source_name : string)
| MsgOverwriting (destination : Path)
| MsgRenaming (source_name new_name : string)
| MsgDryRun (source destination : Path)
| MsgMoved (source destination : Path)
| MsgMoveError (source : Path)
| MsgNoTarget (target : Path)
| MsgStarting (target : Path) (dry_run : bool)
| MsgComplete (processed skipped : nat).

(** The state: the file system as a map from paths to nodes, the records
    logged so far, and the reading of the clock, which one run takes as
    fixed. *)
Record world := mkWorld {
  w_fs : gmap (list string) node;
  w_log : list (level * message);
  w_now : datetime
}.

Inductive outcome (A : Type) :=
| Returned (a : A) (w : world)
| Raised (e : exn) (w : world).
Arguments Returned {A} a w.
Arguments Raised {A} e w.

Definition M (A : Type) : Type := world -> outcome A.

#[export] Instance M_ret : MRet M := fun A a w => Returned a w.

#[export] Instance M_bind : MBind M := fun A B k m w =>
  match m w with
  | Returned a w' => k a w'
  | Raised e w' => Raised e w'
  end.

Definition raise {A} (e : exn) : M A := fun w => Raised e w.

(** [try: m  except OSError: h]; [except (OSError, IOError)] and
    [except (OSError, shutil.Error)] name the same class.  Another
    exception goes through. *)
Definition try_except {A} (m : M A) (h : exn -> M A) : M A := fun w =>
  match m w with
  | Returned a w' => Returned a w'
  | Raised e w' => if is_OSError e then h e w' else Raised e w'
  end.

(** [try: m  except Exception: h] *)
Definition try_except_Exception {A} (m : M A) (h : exn -> M A) : M A := fun w =>
  match m w with
  | Returned a w' => Returned a w'
  | Raised e w' => h e w'
  end.

Definition get_fs : M (gmap (list string) node) := fun w => Returned (w_fs w) w.

Definition put_fs (fs : gmap (list string) node) : M unit := fun w =>
  Returned tt {| w_fs := fs; w_log := w_log w; w_now := w_now w |}.

(** [datetime.now()] *)
Definition now : M datetime := fun w => Returned (w_now w) w.

Definition log (l : level) (m : message) : M unit := fun w =>
  Returned tt {| w_fs := w_fs w; w_log := w_log w ++ [(l, m)]; w_now := w_now w |}.

Definition outcome_world {A} (o : outcome A) : world :=
  match o with Returned _ w => w | Raised _ w => w end.

End Eff.

(* ===================================================================== *)
(** ** [os], [pathlib] and [shutil] calls on the file system              *)
(* ===================================================================== *)

Module PyOS.
Import PyPath PyTime Eff.

(** [p.exists()] *)
Definition exists_ (p : Path) : M bool :=
  fs ← get_fs; mret (bool_decide (is_Some (fs !! p))).

(** [p.is_dir()] *)
Definition is_dir (p : Path) : M bool :=
  fs ← get_fs; mret (from_option node_is_dir false (fs !! p)).

(** [datetime.fromtimestamp(ts)], the time stamp being given by the local
    time [t] it stands for: the C library's [localtime] fails, with
    [OSError], when the year does not fit a [struct tm]; and [datetime]
    refuses, with [ValueError], a year it cannot hold. *)
Definition fromtimestamp (t : datetime) : M datetime :=
  if negb (tm_ok t) then raise OSError
  else if negb (year_ok t) then raise ValueError
  else mret t.

(** [datetime.fromtimestamp(p.stat().st_mtime)] *)
Definition stat_mtime (p : Path) : M datetime :=
  fs ← get_fs;
  match fs !! p with
  | Some n => fromtimestamp (node_mtime n)
  | None => raise FileNotFoundError
  end.

(** [with open(p, 'a'): pass]: fails on a file held by another process;
    append mode creates a missing file when its directory exists. *)
Definition open_append (p : Path) : M unit :=
  fs ← get_fs;
  match fs !! p with
  | Some (File _ true) => raise PermissionError
  | Some (File _ false) => mret tt
  | Some (Dir _) => raise IsADirectoryError
  | None =>
      match fs !! parent p with
      | Some (Dir _) => t ← now; put_fs (<[p := File t false]> fs)
      | Some (File _ _) => raise NotADirectoryError
      | None => raise FileNotFoundError
      end
  end.

(** [p.mkdir(parents=True, exist_ok=True)], as a walk down the chain of
    prefixes of [p]: a missing directory is created, an existing one is
    kept, a regular file in the way raises. *)
Fixpoint mkdir_chain (ps : list Path) : M unit :=
  match ps with
  | [] => mret tt
  | p :: ps' =>
      fs ← get_fs;
      match fs !! p with
      | None => t ← now; put_fs (<[p := Dir t]> fs);; mkdir_chain ps'
      | Some (Dir _) => mkdir_chain ps'
      | Some (File _ _) =>
          raise (match ps' with [] => FileExistsError | _ => NotADirectoryError end)
      end
  end.

Definition mkdir_parents (p : Path) : M unit := mkdir_chain (prefixes p).

Fixpoint is_prefix (p q : Path) : bool :=
  match p, q with
  | [], _ => true
  | x :: p', y :: q' => String.eqb x y && is_prefix p' q'
  | _ :: _, [] => false
  end.

(** [os.rename] of a tree: every entry at or below [src] is re-rooted at
    [dst]. *)
Definition rebase (src dst : Path) (kv : Path * node) : Path * node :=
  if is_prefix src kv.1 then (dst ++ drop (length src) kv.1, kv.2) else kv.

Definition rename_tree (src dst : Path) (fs : gmap (list string) node)
  : gmap (list string) node :=
  list_to_map (rebase src dst <$> map_to_list fs).

(** [shutil.move(src, dst)]: a destination that is a directory receives
    the source under its own name, and refuses it if that name is taken;
    a regular file is renamed over whatever file is at the destination;
    a directory cannot be moved into itself nor over a file. *)
Definition real_destination (src dst : Path) : M Path :=
  d ← is_dir dst;
  if (d : bool) then
    e ← exists_ (dst ++ [name src]);
    if (e : bool) then raise ShutilError else mret (dst ++ [name src])
  else mret dst.

Definition shutil_move (src dst : Path) : M unit :=
  real_dst ← real_destination src dst;
  fs ← get_fs;
  match fs !! src with
  | None => raise FileNotFoundError
  | Some (File t l) =>
      match fs !! parent real_dst with
      | Some (Dir _) => put_fs (<[real_dst := File t l]> (delete src fs))
      | Some (File _ _) => raise NotADirectoryError
      | None => raise FileNotFoundError
      end
  | Some (Dir _) =>
      if is_prefix src real_dst then raise ShutilError
      else match fs !! real_dst, fs !! parent real_dst with
           | Some _, _ => raise FileExistsError
           | None, Some (Dir _) => put_fs (rename_tree src real_dst fs)
           | None, Some (File _ _) => raise NotADirectoryError
           | None, None => raise FileNotFoundError
           end
  end.

(** [p.iterdir()]: the entries directly inside [p], read once. *)
Definition iterdir (p : Path) : M (list Path) :=
  fs ← get_fs;
  match fs !! p with
  | Some (Dir _) =>
      mret (List.filter (fun q : list string =>
                          bool_decide (parent q = p) && negb (bool_decide (q = p)))
                        (map_to_list fs).*1)
  | Some (File _ _) => raise NotADirectoryError
  | None => raise FileNotFoundError
  end.

End PyOS.

(* ===================================================================== *)
(** ** [organizer.py]: the configuration and [class FileOrganizer]        *)
(* ===================================================================== *)

Module Organizer.
Import PyPath PyTime Eff PyOS.

(** The configuration document, as loaded from YAML.  A field read with
    [dict.get(key, default)] is an [option]: [None] is an absent key. *)
Record Condition := mkCondition {
  extension : option (list string);
  filename_contains : option (list string);
  destination : option string;
  subfolder_pattern : option string
}.

Record Rule := mkRule {
  rule_name : string;
  conditions : option (list Condition)
}.

Record DateGroups := mkDateGroups {
  last_week : option Z;
  last_month : option Z
}.

Record Config := mkConfig {
  target_directory : string;
  rules : option (list Rule);
  date_groups : option DateGroups;
  conflict_resolution : option string;
  dry_run : option bool
}.

Definition last_week_days (cfg : Config) : Z :=
  default 7 (date_groups cfg ≫= last_week).

Definition last_month_days (cfg : Config) : Z :=
  default 30 (date_groups cfg ≫= last_month).

(** [get_date_group] *)
Definition get_date_group (cfg : Config) (file_path : Path) : M string :=
  try_except
    (mod_time ← stat_mtime file_path;
     now_ ← now;
     let days_diff := days_between now_ mod_time in
     if days_diff <=? last_week_days cfg then mret "Last_Week"
     else if days_diff <=? last_month_days cfg then mret "Last_Month"
     else mret "Older")
    (fun _ => log WARNING (MsgNoStats file_path);; mret "Unknown").

(** [should_process_file] *)
Definition should_process_file (file_path : Path) : M bool :=
  d ← is_dir file_path;
  if (d : bool) || PyStr.startswith (name file_path) "."
     || PyStr.startswith (name file_path) "~$"
  then mret false
  else try_except
         (open_append file_path;; mret true)
         (fun _ => log WARNING (MsgLocked file_path);; mret false).

(** [resolve_conflict] *)
Definition resolve_conflict (cfg : Config) (source destination : Path)
  : M (option Path) :=
  let resolution := default "rename" (conflict_resolution cfg) in
  e ← exists_ destination;
  if negb e then mret (Some destination)
  else if String.eqb resolution "skip" then
    log INFO (MsgSkipping (name source));; mret None
  else if String.eqb resolution "overwrite" then
    log WARNING (MsgOverwriting destination);; mret (Some destination)
  else if String.eqb resolution "rename" then
    ts ← now;
    let timestamp := stamp ts in
    let new_destination :=
      with_name destination (stem destination +:+ "_" +:+ timestamp +:+ suffix destination) in
    log INFO (MsgRenaming (name source) (name new_destination));;
    mret (Some new_destination)
  else mret None.

(** [create_subfolder_path] *)
Definition create_subfolder_path (file_path : Path) (pattern : option string)
  : M string :=
  match pattern with
  | None => mret ""
  | Some pat =>
      if negb (PyStr.truthy pat) then mret ""
      else
        mod_time ← stat_mtime file_path;
        let folder_path := pat in
        let folder_path := PyStr.replace folder_path "YYYY" (fmt_Y mod_time) in
        let folder_path := PyStr.replace folder_path "MM" (fmt_m mod_time) in
        let folder_path := PyStr.replace folder_path "DD" (fmt_d mod_time) in
        let folder_path := PyStr.replace folder_path "HH" (fmt_H mod_time) in
        let folder_path := PyStr.replace folder_path "MI" (fmt_M mod_time) in
        mret folder_path
  end.

(** Truthiness of a list: non-empty. *)
Definition list_truthy {A} (l : list A) : bool :=
  match l with [] => false | _ => true end.

(** What follows calls [lower] or [upper], itself or through what it
    calls: it is defined for any case mappings. *)
Section WithCasing.
Context {cs : PyStr.Casing}.

(** [process_file]: the two tests of a condition. *)
Definition matches_extension (file_path : Path) (condition : Condition) : bool :=
  let extensions := default [] (extension condition) in
  PyStr.mem "*" extensions
  || PyStr.mem (PyStr.lower (suffix file_path)) (PyStr.lower <$> extensions).

Definition matches_filename (file_path : Path) (condition : Condition) : bool :=
  let patterns := default [] (filename_contains condition) in
  negb (list_truthy patterns)
  || existsb (fun pattern =>
                PyStr.contains (PyStr.lower (name file_path)) (PyStr.lower pattern))
             patterns.

Definition matches (file_path : Path) (condition : Condition) : bool :=
  matches_extension file_path condition && matches_filename file_path condition.

(** How the body of the inner loop is left for a condition that matched:
    by [break] once the action is done, or by [continue]. *)
Inductive ctl := Break | Continue.

(** The destination directory of a matched condition, placeholders
    expanded and the sub-folder appended. *)
Definition destination_dir_of (cfg : Config) (file_path : Path)
           (condition : Condition) : M Path :=
  let destination_dir := default "" (destination condition) in
  let destination_dir :=
    PyStr.replace destination_dir "{extension_group}"
                  (PyStr.upper (PyStr.drop 1 (suffix file_path))) in
  date_group ← get_date_group cfg file_path;
  let destination_dir := PyStr.replace destination_dir "{date_group}" date_group in
  let destination_dir :=
    PyStr.replace destination_dir "{filename_prefix}"
                  (PyStr.split_head (stem file_path) "_") in
  subfolder_path ← create_subfolder_path file_path (subfolder_pattern condition);
  let destination_dir :=
    if PyStr.truthy subfolder_path
    then os_path_join destination_dir subfolder_path
    else destination_dir in
  mret (joinpath (parse (target_directory cfg)) destination_dir).

(** [process_file]: the body of the inner loop under
    [if matches_extension and matches_filename]. *)
Definition apply_condition (cfg : Config) (file_path : Path) (dry : bool)
           (condition : Condition) : M ctl :=
  full_destination ← destination_dir_of cfg file_path condition;
  mkdir_parents full_destination;;
  let destination_file := joinpath full_destination (name file_path) in
  r ← resolve_conflict cfg file_path destination_file;
  match r with
  | None => mret Continue
  | Some destination_file =>
      if dry then
        log INFO (MsgDryRun file_path destination_file);; mret Break
      else
        try_except
          (shutil_move file_path destination_file;;
           log INFO (MsgMoved file_path destination_file);;
           mret Break)
          (fun _ => log ERROR (MsgMoveError file_path);; mret Continue)
  end.

(** [for condition in rule.get('conditions', [])]; the accumulator is
    the variable [file_processed]. *)
Fixpoint condition_loop (cfg : Config) (file_path : Path) (dry : bool)
         (conds : list Condition) (file_processed : bool) : M bool :=
  match conds with
  | [] => mret file_processed
  | condition :: rest =>
      if matches file_path condition then
        r ← apply_condition cfg file_path dry condition;
        match r with
        | Break => mret true
        | Continue => condition_loop cfg file_path dry rest file_processed
        end
      else condition_loop cfg file_path dry rest file_processed
  end.

(** [for rule in self.config.get('rules', [])] *)
Fixpoint rule_loop (cfg : Config) (file_path : Path) (dry : bool)
         (rs : list Rule) (file_processed : bool) : M bool :=
  match rs with
  | [] => mret file_processed
  | rule :: rest =>
      fp ← condition_loop cfg file_path dry (default [] (conditions rule)) file_processed;
      rule_loop cfg file_path dry rest fp
  end.

(** [process_file] *)
Definition process_file (cfg : Config) (file_path : Path) (dry : bool) : M bool :=
  ok ← should_process_file file_path;
  if negb ok then mret false
  else rule_loop cfg file_path dry (default [] (rules cfg)) false.

(** [for file_path in target_dir.iterdir()] with the two counters. *)
Fixpoint files_loop (cfg : Config) (dry : bool) (entries : list Path)
         (files_processed files_skipped : nat) : M (nat * nat) :=
  match entries with
  | [] => mret (files_processed, files_skipped)
  | file_path :: rest =>
      b ← process_file cfg file_path dry;
      if (b : bool) then files_loop cfg dry rest (S files_processed) files_skipped
      else files_loop cfg dry rest files_processed (S files_skipped)
  end.

(** [organize_files]; the bare [return] of a missing target is [None]. *)
Definition organize_files (cfg : Config) (dry_arg : option bool)
  : M (option (nat * nat)) :=
  let dry := match dry_arg with
             | None => default false (dry_run cfg)
             | Some b => b
             end in
  let target_dir := parse (target_directory cfg) in
  e ← exists_ target_dir;
  if negb e then log ERROR (MsgNoTarget target_dir);; mret None
  else
    log INFO (MsgStarting target_dir dry);;
    entries ← iterdir target_dir;
    counts ← files_loop cfg dry entries 0 0;
    log INFO (MsgComplete counts.1 counts.2);;
    mret (Some counts).

End WithCasing.

End Organizer.


(* ===================================================================== *)
(** ** Vocabulary of the specification                                    *)
(* ===================================================================== *)

Module Spec.
Import PyPath PyTime Eff PyOS Organizer.

(** The world after one more log record, and with another file system. *)
Definition logged (w : world) (l : level) (m : message) : world :=
  {| w_fs := w_fs w; w_log := w_log w ++ [(l, m)]; w_now := w_now w |}.

Definition with_fs (w : world) (fs : gmap (list string) node) : world :=
  {| w_fs := fs; w_log := w_log w; w_now := w_now w |}.

(** A path that exists, and one that is a directory. *)
Definition present (w : world) (p : Path) : Prop := is_Some (w_fs w !! p).

Definition is_directory (w : world) (p : Path) : Prop :=
  exists t, w_fs w !! p = Some (Dir t).

(** *** Matching *)

(** The extension set and the filename-substring set of a condition, an
    absent key being the empty list. *)
Definition extension_set (c : Condition) : list string := default [] (extension c).
Definition pattern_set (c : Condition) : list string := default [] (filename_contains c).

(** [p] occurs in [s]. *)
Definition occurs_in (p s : string) : Prop := exists pre post, s = pre +:+ p +:+ post.

(** The matching rule in the words of the specification. *)
Definition condition_matches_spec {cs : PyStr.Casing} (file_path : Path) (c : Condition)
  : Prop :=
  (In "*" (extension_set c)
   \/ In (PyStr.lower (suffix file_path)) (map PyStr.lower (extension_set c)))
  /\
  (pattern_set c = []
   \/ exists pattern, In pattern (pattern_set c)
        /\ occurs_in (PyStr.lower pattern) (PyStr.lower (name file_path))).

(** The conditions of a rule set in configuration order, and the first of
    them that matches a file. *)
Definition all_conditions (rs : list Rule) : list Condition :=
  concat (map (fun r => default [] (conditions r)) rs).

Definition first_match {cs : PyStr.Casing} (file_path : Path) (rs : list Rule)
  : option Condition :=
  List.find (matches file_path) (all_conditions rs).

(** *** Dates and time stamps *)

(** The age of a file in whole days, as [get_date_group] computes it. *)
Definition age_days (w : world) (n : node) : Z :=
  days_between (w_now w) (node_mtime n).

(** The time elapsed between two date-times, in microseconds. *)
Definition elapsed_us (a b : datetime) : Z :=
  ((toordinal a - toordinal b) * 86400
   + (seconds_of_day a - seconds_of_day b)) * 1000000
  + (microsecond a - microsecond b).

Definition is_digit (c : ascii) : bool :=
  let n := N_of_ascii c in ((48 <=? n) && (n <=? 57))%N.

Fixpoint all_digits (s : string) : bool :=
  match s with
  | EmptyString => true
  | String c s' => is_digit c && all_digits s'
  end.

(** The number a string of decimal digits denotes. *)
Fixpoint value_from (acc : Z) (s : string) : Z :=
  match s with
  | EmptyString => acc
  | String c s' => value_from (acc * 10 + (Z.of_N (N_of_ascii c) - 48)) s'
  end.

Definition decimal_value (s : string) : Z := value_from 0 s.

(** [s] is the [w]-digit decimal writing of [n]. *)
Definition reads_as (s : string) (w : nat) (n : Z) : Prop :=
  String.length s = w /\ all_digits s = true /\ decimal_value s = n.

(** The shape [YYYYMMDD_HHMMSS]: six zero-padded fields, the seconds
    last, an underscore between the date and the time. *)
Definition stamp_shape (d : datetime) (s : string) : Prop :=
  exists Y Mo D H Mi S : string,
    s = Y +:+ Mo +:+ D +:+ "_" +:+ H +:+ Mi +:+ S /\
    reads_as Y 4 (year d) /\ reads_as Mo 2 (month d) /\ reads_as D 2 (day d) /\
    reads_as H 2 (hour d) /\ reads_as Mi 2 (minute d) /\ reads_as S 2 (second d).

(** The name [rename] gives: the time stamp goes between stem and suffix. *)
Definition renamed (w : world) (destination : Path) : string :=
  stem destination +:+ "_" +:+ stamp (w_now w) +:+ suffix destination.

(** The configuration with another conflict policy. *)
Definition with_policy (cfg : Config) (policy : option string) : Config :=
  {| target_directory := target_directory cfg; rules := rules cfg;
     date_groups := date_groups cfg; conflict_resolution := policy;
     dry_run := dry_run cfg |}.

(** *** Exclusion *)

(** The four reasons for which an entry is left out before any rule is
    looked at. *)
Definition excluded (w : world) (file_path : Path) : Prop :=
  is_directory w file_path
  \/ PyStr.startswith (name file_path) "." = true
  \/ PyStr.startswith (name file_path) "~$" = true
  \/ exists e w', open_append file_path w = Raised e w'.

(** *** What a computation keeps *)

(** [m] relates the world it starts in to the world it ends in, whether it
    returns or raises. *)
Definition keeps (R : world -> world -> Prop) {A} (m : M A) : Prop :=
  forall w, R w (outcome_world (m w)).

(** Same file system and clock; only the log may grow. *)
Definition same_fs (w w' : world) : Prop :=
  w_fs w' = w_fs w /\ w_now w' = w_now w.

(** Every entry is still there, unchanged; entries may have been added. *)
Definition grows (w w' : world) : Prop :=
  w_fs w ⊆ w_fs w' /\ w_now w' = w_now w.

(** Every entry other than [p] is still there, unchanged. *)
Definition spares (p : Path) (w w' : world) : Prop :=
  forall q n, q <> p -> w_fs w !! q = Some n -> w_fs w' !! q = Some n.

(** A relation between worlds that computations can be chained along, and
    that logging respects. *)
Class Frame (R : world -> world -> Prop) : Prop := {
  frame_refl : forall w, R w w;
  frame_trans : forall w1 w2 w3, R w1 w2 -> R w2 w3 -> R w1 w3;
  frame_log : forall w l m, R w (logged w l m)
}.

(** The snapshot of the target directory [organize_files] iterates over. *)
Definition snapshot (cfg : Config) (w : world) : list Path :=
  match iterdir (parse (target_directory cfg)) w with
  | Returned entries _ => entries
  | Raised _ _ => []
  end.

(** *** Two sentences of the specification, as written *)



End Spec.

(* ===================================================================== *)
(** ** Concrete runs                                                      *)
(* ===================================================================== *)

Module Scenario.
Import PyPath PyTime Eff PyOS Organizer Spec.

(** The clock reads 2024-03-15 12:00:00. *)
Definition clock : datetime := mkdt 2024 3 15 12 0 0 0.
Definition three_days_ago : datetime := mkdt 2024 3 12 12 0 0 0.
Definition ten_days_ago : datetime := mkdt 2024 3 5 12 0 0 0.
Definition long_ago : datetime := mkdt 2023 2 9 12 0 0 0.

Definition world_of (entries : list (Path * node)) : world :=
  {| w_fs := list_to_map ([(["/"], Dir long_ago); (["/"; "t"], Dir long_ago)] ++ entries);
     w_log := [];
     w_now := clock |}.

Definition condition_to (exts : list string) (dest : string) : Condition :=
  {| extension := Some exts; filename_contains := None;
     destination := Some dest; subfolder_pattern := None |}.

Definition config_of (rs : list Rule) (policy : option string) : Config :=
  {| target_directory := "/t"; rules := Some rs; date_groups := None;
     conflict_resolution := policy; dry_run := None |}.

(** Three files of different ages. *)
Definition aged_world : world :=
  world_of [ (["/"; "t"; "recent.txt"], File three_days_ago false);
             (["/"; "t"; "month.txt"], File ten_days_ago false);
             (["/"; "t"; "old.txt"], File long_ago false) ].

Definition thresholds_7_30 : Config :=
  {| target_directory := "/t"; rules := Some [];
     date_groups := Some {| last_week := Some 7; last_month := Some 30 |};
     conflict_resolution := None; dry_run := None |}.





(** One text file, and a [Docs] directory that already holds a file of
    the same name. *)
Definition notes : Path := ["/"; "t"; "notes.txt"].

Definition plain_world : world :=
  world_of [ (notes, File three_days_ago false) ].

Definition taken_world : world :=
  world_of [ (notes, File three_days_ago false);
             (["/"; "t"; "Docs"], Dir ten_days_ago);
             (["/"; "t"; "Docs"; "notes.txt"], File ten_days_ago false) ].

Definition to_docs : Condition := condition_to [".txt"] "Docs".
Definition to_other : Condition := condition_to ["*"] "Other".

Definition one_rule (policy : option string) : Config :=
  config_of [ {| rule_name := "by type"; conditions := Some [to_docs] |} ] policy.

(** Two rules that both match [notes.txt]. *)
Definition two_rules (policy : option string) : Config :=
  config_of [ {| rule_name := "by type"; conditions := Some [to_docs] |};
              {| rule_name := "everything"; conditions := Some [to_other] |} ] policy.

(** One rule with two conditions that both match [notes.txt]. *)
Definition two_conditions (policy : option string) : Config :=
  config_of [ {| rule_name := "by type"; conditions := Some [to_docs; to_other] |} ] policy.

(** Two rules that both match, the second one filing by year. *)
Definition by_year : Condition :=
  {| extension := Some ["*"]; filename_contains := None;
     destination := Some "ByDate"; subfolder_pattern := Some "YYYY" |}.

Definition type_then_year : Config :=
  config_of [ {| rule_name := "by type"; conditions := Some [to_docs] |};
              {| rule_name := "by year"; conditions := Some [by_year] |} ] (Some "rename").

Definition report : Path := ["/"; "t"; "report.txt"].

Definition two_files_world : world :=
  world_of [ (notes, File three_days_ago false);
             (report, File ten_days_ago false) ].


(** A mixed directory: a file to move, a hidden file, a lock marker, a
    sub-directory and a file held by another process. *)
Definition mixed_world : world :=
  world_of [ (notes, File three_days_ago false);
             (["/"; "t"; ".hidden"], File three_days_ago false);
             (["/"; "t"; "~$draft.txt"], File three_days_ago false);
             (["/"; "t"; "sub"], Dir three_days_ago);
             (["/"; "t"; "busy.txt"], File three_days_ago true) ].

End Scenario.

(* ===================================================================== *)
(** ** Templates: texts with named tokens                                 *)
(* ===================================================================== *)

Module Template.
Import PyTime.

(** [old] and [s] disagree at a position they both have: [old] cannot be
    a prefix of [s] followed by anything. *)
Fixpoint clash (old s : string) : bool :=
  match old, s with
  | String x old', String y s' => if Ascii.eqb x y then clash old' s' else true
  | _, _ => false
  end.

(** [old] matches at no position of [a], whatever text follows [a]. *)
Fixpoint blocks (old a : string) : bool :=
  match a with
  | EmptyString => true
  | String _ a' => clash old a && blocks old a'
  end.

Fixpoint char_in (c : ascii) (chars : string) : bool :=
  match chars with
  | EmptyString => false
  | String x chars' => Ascii.eqb c x || char_in c chars'
  end.

(** No character of [s] is one of [chars]. *)
Fixpoint lacks (chars s : string) : bool :=
  match s with
  | EmptyString => true
  | String c s' => negb (char_in c chars) && lacks chars s'
  end.


(** *** Sub-folder patterns *)

(** A sub-folder pattern cut into literal text and date tokens. *)
Inductive date_piece :=
| Text (s : string)
| YYYY | MM | DD | HH | MI.





(** Literal text that cannot be taken for the start of a token. *)
Definition date_text_ok (p : date_piece) : bool :=
  match p with
  | Text s => lacks "YMDH" s
  | _ => true
  end.


(** *** Destination templates *)









End Template.

(* ===================================================================== *)
(** ** [utils.py]                                                         *)
(* ===================================================================== *)

Module Utils.
Import Organizer.

(** The [date_groups] mapping of a configuration document; the sample
    configuration writes a third key, [older], that nothing reads. *)
Record DateGroupsDoc := mkDateGroupsDoc {
  dg_last_week : option Z;
  dg_last_month : option Z;
  dg_older : option Z
}.

(** A configuration document as a dictionary: every key may be absent. *)
Record Document := mkDocument {
  doc_target_directory : option string;
  doc_log_file : option string;
  doc_dry_run : option bool;
  doc_rules : option (list Rule);
  doc_date_groups : option DateGroupsDoc;
  doc_conflict_resolution : option string
}.

(** [key in config] *)
Definition has_key (config : Document) (key : string) : bool :=
  if String.eqb key "target_directory" then bool_decide (is_Some (doc_target_directory config))
  else if String.eqb key "log_file" then bool_decide (is_Some (doc_log_file config))
  else if String.eqb key "dry_run" then bool_decide (is_Some (doc_dry_run config))
  else if String.eqb key "rules" then bool_decide (is_Some (doc_rules config))
  else if String.eqb key "date_groups" then bool_decide (is_Some (doc_date_groups config))
  else if String.eqb key "conflict_resolution"
       then bool_decide (is_Some (doc_conflict_resolution config))
  else false.

Definition required_keys : list string := ["target_directory"; "rules"].

(** The outcome of [validate_config]: the lines printed and the value
    returned. *)
Definition verdict : Type := list string * bool.

(** [for key in required_keys] *)
Fixpoint check_required (config : Document) (keys : list string) (k : verdict) : verdict :=
  match keys with
  | [] => k
  | key :: rest =>
      if negb (has_key config key)
      then (["Missing required config key: " +:+ key], false)
      else check_required config rest k
  end.

(** [for condition in rule['conditions']] *)
Fixpoint check_conditions (conds : list Condition) (k : verdict) : verdict :=
  match conds with
  | [] => k
  | condition :: rest =>
      match destination condition with
      | None => (["Condition missing 'destination' key"], false)
      | Some _ => check_conditions rest k
      end
  end.

(** [for rule in config.get('rules', [])] *)
Fixpoint check_rules (rs : list Rule) (k : verdict) : verdict :=
  match rs with
  | [] => k
  | rule :: rest =>
      match conditions rule with
      | None => (["Rule missing 'conditions' key"], false)
      | Some conds => check_conditions conds (check_rules rest k)
      end
  end.

(** [validate_config] *)
Definition validate_config (config : Document) : verdict :=
  check_required config required_keys
    (check_rules (default [] (doc_rules config)) ([], true)).

(** The dictionary [create_sample_config] writes out. *)
Definition sample_config : Document :=
  {| doc_target_directory := Some "~/Downloads";
     doc_log_file := Some "logs/organizer.log";
     doc_dry_run := Some false;
     doc_rules :=
       Some [ {| rule_name := "Organize by file type";
                 conditions :=
                   Some [ {| extension := Some [".pdf"; ".doc"; ".docx"; ".txt"];
                             filename_contains := None;
                             destination := Some "Documents/{extension_group}";
                             subfolder_pattern := None |} ] |} ];
     doc_date_groups :=
       Some {| dg_last_week := Some 7; dg_last_month := Some 30; dg_older := Some 365 |};
     doc_conflict_resolution := Some "rename" |}.


End Utils.

(* ===================================================================== *)
(** ** [scheduler.py]: one scheduled run                                  *)
(* ===================================================================== *)

Module Scheduler.
Import Eff Organizer.

(** The three records [run_organization] logs itself.  The first comes
    before everything the organizer logs and the others after it, so they
    are returned apart, in order, while the organizer's records go to the
    log of the world. *)
Inductive record :=
| Started
| Failed (e : exn)
| Completed.

(** [run_organization]: [organize_files()] is called without argument,
    and [except Exception] catches whatever it raises. *)
Definition run_organization {cs : PyStr.Casing} (cfg : Config) : M (list record) :=
  try_except_Exception
    (organize_files cfg None;; mret [Started; Completed])
    (fun e => mret [Started; Failed e; Completed]).

End Scheduler.

(* ===================================================================== *)
(** ** [setup_logging]: what it does to the file system                   *)
(* ===================================================================== *)

Module Logging.
Import PyPath Eff PyOS.

(** [s.rstrip('/')] *)
Fixpoint lstrip_slash (s : string) : string :=
  match s with
  | String c s' => if Ascii.eqb c "/" then lstrip_slash s' else s
  | EmptyString => EmptyString
  end.

Definition rstrip_slash (s : string) : string :=
  String.rev (lstrip_slash (String.rev s)).

(** [s == '/' * len(s)] *)
Fixpoint all_slashes (s : string) : bool :=
  match s with
  | EmptyString => true
  | String c s' => Ascii.eqb c "/" && all_slashes s'
  end.

(** [os.path.dirname(p)] *)
Definition dirname (p : string) : string :=
  let head := match PyStr.rfind p "/" with
              | Some i => PyStr.take (S i) p
              | None => ""
              end in
  if PyStr.truthy head && negb (all_slashes head) then rstrip_slash head else head.

(** [os.mkdir(p)]: the path must be free and its parent a directory. *)
Definition os_mkdir (p : Path) : M unit :=
  fs ← get_fs;
  match fs !! p with
  | Some _ => raise FileExistsError
  | None =>
      match fs !! parent p with
      | Some (Dir _) => t ← now; put_fs (<[p := Dir t]> fs)
      | Some (File _ _) => raise NotADirectoryError
      | None => raise FileNotFoundError
      end
  end.

(** [os.makedirs(p)]: the missing ancestors are made first, shortest
    first, then the directory itself, which must not exist. *)
Fixpoint makedirs_chain (ps : list Path) : M unit :=
  match ps with
  | [] => mret tt
  | q :: rest =>
      e ← exists_ q;
      if (e : bool) then makedirs_chain rest
      else os_mkdir q;; makedirs_chain rest
  end.

Definition makedirs (p : Path) : M unit :=
  makedirs_chain (removelast (prefixes p));; os_mkdir p.

(** [setup_logging], for its effect on the file system: the directory of
    the log file is made when it is named and missing, and
    [logging.FileHandler(log_file)] opens the log file for append.
    [log_file_key] is the [log_file] key of the configuration. *)
Definition setup_logging (log_file_key : option string) : M unit :=
  let log_file := default "organizer.log" log_file_key in
  let log_dir := dirname log_file in
  (if PyStr.truthy log_dir then
     e ← exists_ (parse log_dir);
     if negb e then makedirs (parse log_dir) else mret tt
   else mret tt);;
  open_append (parse log_file).

End Logging.

(* ===================================================================== *)
(** ** Vocabulary for the further properties                              *)
(* ===================================================================== *)

Module Further.
Import PyPath PyTime Eff PyOS Organizer Spec Utils.


Definition group_rank (g : string) : nat :=
  if String.eqb g "Last_Week" then 0
  else if String.eqb g "Last_Month" then 1
  else if String.eqb g "Older" then 2
  else 3.

(** The date group of an age in days. *)
Definition group_of_age (cfg : Config) (age : Z) : string :=
  if age <=? last_week_days cfg then "Last_Week"
  else if age <=? last_month_days cfg then "Last_Month"
  else "Older".

(** The configuration with another [dry_run] key. *)
Definition with_dry_run (cfg : Config) (flag : option bool) : Config :=
  {| target_directory := target_directory cfg; rules := rules cfg;
     date_groups := date_groups cfg; conflict_resolution := conflict_resolution cfg;
     dry_run := flag |}.


(** What [validate_config] asks of a document. *)
Definition rule_well_formed (r : Rule) : Prop :=
  exists conds, conditions r = Some conds
    /\ Forall (fun c => is_Some (destination c)) conds.

Definition document_well_formed (config : Document) : Prop :=
  is_Some (doc_target_directory config)
  /\ exists rs, doc_rules config = Some rs /\ Forall rule_well_formed rs.

(** A document whose second rule has a condition without destination,
    after a rule and a condition that are in order and before a rule that
    has no conditions. *)
Definition no_destination : Condition :=
  {| extension := Some [".txt"]; filename_contains := None;
     destination := None; subfolder_pattern := None |}.

Definition faulty_document : Document :=
  {| doc_target_directory := Some "/t"; doc_log_file := None; doc_dry_run := None;
     doc_rules :=
       Some [ {| rule_name := "fine"; conditions := Some [Scenario.to_docs] |};
              {| rule_name := "faulty";
                 conditions := Some [Scenario.to_other; no_destination] |};
              {| rule_name := "never looked at"; conditions := None |} ];
     doc_date_groups := None; doc_conflict_resolution := None |}.

(** A file name as a directory listing gives it: one path part, so that
    joining it to a directory adds that part. *)
Definition plain_name (n : string) : Prop :=
  PyStr.startswith n "/" = false /\ parse n = [n].

End Further.

(* ===================================================================== *)
(** ** Facts about the modelled library calls                             *)
(* ===================================================================== *)

Example ex_lower : PyStr.lower ".PDF" = ".pdf".
Proof. reflexivity. Qed.

Example ex_suffix : PyPath.suffix_of "archive.TAR" = ".TAR".
Proof. reflexivity. Qed.

Example ex_suffix_hidden : PyPath.suffix_of ".bashrc" = "".
Proof. reflexivity. Qed.

Example ex_stem : PyPath.stem_of "a.tar.gz" = "a.tar".
Proof. reflexivity. Qed.

Example ex_replace :
  PyStr.replace "Docs/{extension_group}/x" "{extension_group}" "TXT" = "Docs/TXT/x".
Proof. reflexivity. Qed.

Example ex_replace_overlap : PyStr.replace "aXXbXXX" "XX" "Y" = "aYbYX".
Proof. reflexivity. Qed.

Example ex_parse : PyPath.parse "/t//Docs/./TXT/" = ["/"; "t"; "Docs"; "TXT"].
Proof. reflexivity. Qed.

Example ex_join_absolute : PyPath.joinpath ["/"; "t"] "/abs" = ["/"; "abs"].
Proof. reflexivity. Qed.

Example ex_ordinal : PyTime.toordinal (PyTime.mkdt 2024 3 15 0 0 0 0) = 738960.
Proof. reflexivity. Qed.

Example ex_days_floor :
  PyTime.days_between (PyTime.mkdt 2024 3 15 12 0 0 0) (PyTime.mkdt 2024 3 12 12 0 1 0) = 2
  /\ PyTime.days_between (PyTime.mkdt 2024 3 15 12 0 0 0) (PyTime.mkdt 2024 3 16 12 0 1 0) = -2.
Proof. split; reflexivity. Qed.

Example ex_stamp : PyTime.stamp (PyTime.mkdt 2024 3 5 9 7 1 0) = "20240305_090701".
Proof. reflexivity. Qed.

Example ex_year_unpadded : PyTime.fmt_Y (PyTime.mkdt 999 6 1 2 3 4 0) = "999".
Proof. reflexivity. Qed.

Example ex_upper : PyStr.upper "docx" = "DOCX".
Proof. reflexivity. Qed.

Example ex_lower_latin1 : PyStr.latin1_lower "RÉSUMÉ.TXT" = "résumé.txt".
Proof. reflexivity. Qed.

Example ex_upper_latin1 : PyStr.latin1_upper "straße.café" = "STRASSE.CAFÉ".
Proof. reflexivity. Qed.

Section StringFacts.

Lemma append_nil (b : string) : "" +:+ b = b.
Proof. reflexivity. Qed.

Lemma append_cons (c : ascii) (a b : string) :
  String c a +:+ b = String c (a +:+ b).
Proof. reflexivity. Qed.

Lemma append_empty_r (a : string) : a +:+ "" = a.
Proof. induction a as [|c a IH]; [reflexivity | now rewrite append_cons, IH]. Qed.

Lemma append_length (a b : string) :
  String.length (a +:+ b) = (String.length a + String.length b)%nat.
Proof.
  induction a as [|c a IH]; [reflexivity|].
  rewrite append_cons. simpl. now rewrite IH.
Qed.

Lemma prefix_iff (p s : string) :
  String.prefix p s = true <-> exists t, s = p +:+ t.
Proof.
  revert s. induction p as [|a p IH]; intros s.
  - split; [intros _; now exists s | intros _; now destruct s].
  - destruct s as [|b s]; simpl.
    + split; [discriminate | intros [t Ht]; discriminate].
    + destruct (ascii_dec a b) as [->|Hne].
      * rewrite IH. split; intros [t Ht]; exists t.
        -- now rewrite Ht.
        -- now injection Ht.
      * split; [discriminate | intros [t Ht]; injection Ht; congruence].
Qed.

(** [contains] is the substring test. *)
Lemma contains_iff (s p : string) :
  PyStr.contains s p = true <-> Spec.occurs_in p s.
Proof.
  unfold Spec.occurs_in.
  induction s as [|a s IH]; cbn [PyStr.contains].
  - rewrite orb_false_r, prefix_iff. split.
    + intros [t Ht]. now exists "", t.
    + intros [pre [post H]]. destruct pre; [now exists post | discriminate].
  - rewrite orb_true_iff, prefix_iff, IH. split.
    + intros [[t Ht] | [pre [post H]]].
      * now exists "", t.
      * exists (String a pre), post. simpl. now rewrite H.
    + intros [pre [post H]]. destruct pre as [|b pre]; simpl in H.
      * left. now exists post.
      * right. injection H as _ H. now exists pre, post.
Qed.

Lemma mem_iff (x : string) (l : list string) :
  PyStr.mem x l = true <-> In x l.
Proof.
  unfold PyStr.mem. rewrite existsb_exists. split.
  - intros [y [Hy Heq]]. apply String.eqb_eq in Heq. now subst.
  - intros H. exists x. split; [assumption | apply String.eqb_refl].
Qed.

Lemma take_drop (n : nat) (s : string) :
  PyStr.take n s +:+ PyStr.drop n s = s.
Proof.
  revert s. induction n as [|n IH]; intros [|c s]; simpl; try reflexivity.
  rewrite append_cons. f_equal. apply IH.
Qed.

(** A file name is its stem followed by its suffix. *)
Lemma stem_suffix (n : string) :
  PyPath.stem_of n +:+ PyPath.suffix_of n = n.
Proof.
  unfold PyPath.stem_of, PyPath.suffix_of.
  destruct (PyStr.rfind n ".") as [i|].
  - destruct (PyPath.has_suffix_at n i).
    + apply take_drop.
    + apply append_empty_r.
  - apply append_empty_r.
Qed.

Lemma name_snoc (p : PyPath.Path) (n : string) : PyPath.name (p ++ [n]) = n.
Proof. unfold PyPath.name. apply last_last. Qed.

Lemma parent_snoc (p : PyPath.Path) (n : string) : PyPath.parent (p ++ [n]) = p.
Proof. unfold PyPath.parent. apply removelast_last. Qed.

End StringFacts.

Section StampFacts.
Import PyTime Spec.

Lemma digit_is_digit (n : Z) : is_digit (digit n) = true.
Proof.
  unfold is_digit, digit.
  assert (H : 0 <= n mod 10 < 10) by (apply Z.mod_pos_bound; lia).
  rewrite N_ascii_embedding by lia.
  apply andb_true_intro. split; apply N.leb_le; lia.
Qed.

Lemma digit_value (n : Z) : Z.of_N (N_of_ascii (digit n)) - 48 = n mod 10.
Proof.
  unfold digit.
  assert (H : 0 <= n mod 10 < 10) by (apply Z.mod_pos_bound; lia).
  rewrite N_ascii_embedding by lia. lia.
Qed.

Lemma all_digits_app (a b : string) :
  all_digits (a +:+ b) = all_digits a && all_digits b.
Proof.
  induction a as [|c a IH]; [reflexivity|].
  rewrite append_cons. simpl. now rewrite IH, andb_assoc.
Qed.

Lemma value_from_app (acc : Z) (a b : string) :
  value_from acc (a +:+ b) = value_from (value_from acc a) b.
Proof.
  revert acc. induction a as [|c a IH]; intros acc; [reflexivity|].
  rewrite append_cons. simpl. apply IH.
Qed.

Lemma zpad_length (w : nat) (n : Z) : String.length (zpad w n) = w.
Proof.
  revert n. induction w as [|w IH]; intros n; simpl; [reflexivity|].
  rewrite append_length, IH. simpl. lia.
Qed.

Lemma zpad_digits (w : nat) (n : Z) : all_digits (zpad w n) = true.
Proof.
  revert n. induction w as [|w IH]; intros n; simpl; [reflexivity|].
  rewrite all_digits_app, IH. simpl. now rewrite digit_is_digit.
Qed.

Lemma zpad_value_from (w : nat) (n acc : Z) :
  0 <= n < 10 ^ Z.of_nat w ->
  value_from acc (zpad w n) = acc * 10 ^ Z.of_nat w + n.
Proof.
  revert n acc. induction w as [|w IH]; intros n acc Hn.
  - simpl in *. lia.
  - cbn [zpad]. rewrite value_from_app. simpl value_from.
    rewrite digit_value.
    replace (Z.of_nat (S w)) with (Z.succ (Z.of_nat w)) in * by lia.
    rewrite Z.pow_succ_r in * by lia.
    rewrite IH.
    + pose proof (Z.div_mod n 10). lia.
    + split; [apply Z.div_pos; lia | apply Z.div_lt_upper_bound; lia].
Qed.

(** Zero padding to [w] digits loses nothing below [10 ^ w]. *)
Lemma zpad_value (w : nat) (n : Z) :
  0 <= n < 10 ^ Z.of_nat w -> decimal_value (zpad w n) = n.
Proof. intros H. unfold decimal_value. rewrite zpad_value_from by assumption. lia. Qed.

Lemma days_in_month_le (y m : Z) : 28 <= days_in_month y m <= 31.
Proof.
  unfold days_in_month.
  destruct (m =? 2); [destruct (is_leap y); lia|].
  destruct ((m =? 4) || (m =? 6) || (m =? 9) || (m =? 11)); lia.
Qed.


Lemma fmt_Y_four (d : datetime) : 1000 <= year d -> fmt_Y d = zpad 4 (year d).
Proof.
  intros H. unfold fmt_Y. cbv zeta.
  destruct (Z.ltb_spec (year d) 10); [lia|].
  destruct (Z.ltb_spec (year d) 100); [lia|].
  destruct (Z.ltb_spec (year d) 1000); [lia | reflexivity].
Qed.

Lemma valid_year (d : datetime) : valid d = true -> 1000 <= year d <= 9999.
Proof.
  unfold valid. rewrite !andb_true_iff, !Z.leb_le. tauto.
Qed.

(** The stamp of a valid date-time has the shape [YYYYMMDD_HHMMSS]. *)
Lemma stamp_has_shape (d : datetime) :
  valid d = true -> stamp_shape d (stamp d).
Proof.
  intros Hv. pose proof (valid_year d Hv) as Hy. revert Hv.
  unfold valid. rewrite !andb_true_iff, !Z.leb_le.
  intros [[[[[[[[[[[[[Hy1 Hy2] Hm1] Hm2] Hd1] Hd2] Hh1] Hh2] Hi1] Hi2] Hs1] Hs2] _] _].
  pose proof (days_in_month_le (year d) (month d)) as Hdim.
  exists (fmt_Y d), (fmt_m d), (fmt_d d), (fmt_H d), (fmt_M d), (fmt_S d).
  split; [reflexivity|].
  rewrite (fmt_Y_four d) by lia.
  unfold fmt_m, fmt_d, fmt_H, fmt_M, fmt_S.
  repeat split; try apply zpad_length; try apply zpad_digits;
    apply zpad_value; simpl; lia.
Qed.

(** The age in days is the floor of the elapsed time. *)
Lemma days_between_floor (a b : datetime) (d : Z) :
  days_between a b = d <->
  d * 86400000000 <= elapsed_us a b < (d + 1) * 86400000000.
Proof.
  unfold days_between. fold (elapsed_us a b).
  generalize (elapsed_us a b). intros e.
  pose proof (Z.div_mod e 86400000000).
  pose proof (Z.mod_pos_bound e 86400000000).
  split; [intros <-; lia | intros Hd; nia].
Qed.

End StampFacts.

(* ===================================================================== *)
(** ** Running the monad                                                  *)
(* ===================================================================== *)

Section Running.
Import PyPath PyTime Eff PyOS Spec.

Lemma run_ret {A} (a : A) (w : world) : (mret a : M A) w = Returned a w.
Proof. reflexivity. Qed.

Lemma run_bind {A B} (m : M A) (k : A -> M B) (w : world) :
  (m ≫= k) w = match m w with
               | Returned a w' => k a w'
               | Raised e w' => Raised e w'
               end.
Proof. reflexivity. Qed.

Lemma run_log (l : level) (m : message) (w : world) :
  log l m w = Returned tt (logged w l m).
Proof. reflexivity. Qed.

Lemma run_get_fs (w : world) : get_fs w = Returned (w_fs w) w.
Proof. reflexivity. Qed.

Lemma run_put_fs (fs : gmap (list string) node) (w : world) :
  put_fs fs w = Returned tt (with_fs w fs).
Proof. reflexivity. Qed.

Lemma run_raise {A} (e : exn) (w : world) : (raise e : M A) w = Raised e w.
Proof. reflexivity. Qed.

Lemma run_exists (p : Path) (w : world) :
  exists_ p w = Returned (bool_decide (is_Some (w_fs w !! p))) w.
Proof. reflexivity. Qed.

Lemma run_is_dir (p : Path) (w : world) :
  is_dir p w = Returned (from_option node_is_dir false (w_fs w !! p)) w.
Proof. reflexivity. Qed.

Lemma run_now (w : world) : now w = Returned (w_now w) w.
Proof. reflexivity. Qed.

Lemma year_ok_tm_ok (t : datetime) : year_ok t = true -> tm_ok t = true.
Proof.
  unfold year_ok, tm_ok, MINYEAR, MAXYEAR.
  rewrite !andb_true_iff, !Z.leb_le. lia.
Qed.

(** The three ways [datetime.fromtimestamp] ends. *)
Lemma run_fromtimestamp (t : datetime) (w : world) :
  fromtimestamp t w
  = if year_ok t then Returned t w
    else if tm_ok t then Raised ValueError w else Raised OSError w.
Proof.
  unfold fromtimestamp. destruct (year_ok t) eqn:Ey.
  - now rewrite (year_ok_tm_ok t Ey).
  - destruct (tm_ok t); reflexivity.
Qed.

Lemma run_stat (p : Path) (w : world) :
  stat_mtime p w
  = match w_fs w !! p with
    | Some n => fromtimestamp (node_mtime n) w
    | None => Raised FileNotFoundError w
    end.
Proof.
  unfold stat_mtime. rewrite run_bind, run_get_fs.
  destruct (w_fs w !! p); reflexivity.
Qed.

Lemma run_stat_some (p : Path) (w : world) (n : node) :
  w_fs w !! p = Some n -> year_ok (node_mtime n) = true ->
  stat_mtime p w = Returned (node_mtime n) w.
Proof.
  intros H Hy. now rewrite run_stat, H, run_fromtimestamp, Hy.
Qed.

Lemma run_stat_none (p : Path) (w : world) :
  w_fs w !! p = None -> stat_mtime p w = Raised FileNotFoundError w.
Proof. intros H. now rewrite run_stat, H. Qed.

End Running.

#[local] Ltac run :=
  repeat (rewrite ?run_bind, ?run_ret, ?run_log, ?run_get_fs, ?run_put_fs,
            ?run_raise, ?run_exists, ?run_is_dir, ?run_now;
          cbn beta iota).

(* ===================================================================== *)
(** ** The matcher                                                        *)
(* ===================================================================== *)

Section Matcher.
Import PyPath Organizer Spec.

Lemma matches_extension_iff {cs : PyStr.Casing} (file_path : Path) (c : Condition) :
  matches_extension file_path c = true <->
  In "*" (extension_set c)
  \/ In (PyStr.lower (suffix file_path)) (map PyStr.lower (extension_set c)).
Proof.
  unfold matches_extension, extension_set.
  now rewrite orb_true_iff, !mem_iff.
Qed.

Lemma matches_filename_iff {cs : PyStr.Casing} (file_path : Path) (c : Condition) :
  matches_filename file_path c = true <->
  pattern_set c = []
  \/ exists pattern, In pattern (pattern_set c)
       /\ occurs_in (PyStr.lower pattern) (PyStr.lower (name file_path)).
Proof.
  unfold matches_filename, pattern_set.
  rewrite orb_true_iff, existsb_exists.
  setoid_rewrite contains_iff.
  destruct (default [] (filename_contains c)) as [|x l]; simpl.
  - split; [now left | intros _; now left].
  - split; (intros [H|H]; [discriminate | now right]).
Qed.

(** C4. A condition matches a file exactly when its extension test and its
    filename test both pass: the extension list holds ["*"] or holds, up to
    letter case, the suffix of the file; and the pattern list is empty or
    one of its patterns occurs, up to letter case, in the file name.  In
    particular ["*"] passes the extension test whatever the suffix is, the
    empty one included, so that the filename test alone decides; and an
    empty extension list matches nothing.  This holds whatever the case
    mappings are, so for Python's on every file name. *)
Theorem condition_matches_iff {cs : PyStr.Casing} (file_path : Path) (c : Condition) :
  (matches file_path c = true <-> condition_matches_spec file_path c)
  /\ (In "*" (extension_set c) ->
      matches_extension file_path c = true
      /\ matches file_path c = matches_filename file_path c
      /\ (pattern_set c = [] -> matches file_path c = true))
  /\ (extension_set c = [] -> matches file_path c = false).
Proof.
  split; [|split].
  - unfold matches, condition_matches_spec.
    now rewrite andb_true_iff, matches_extension_iff, matches_filename_iff.
  - intros H.
    assert (He : matches_extension file_path c = true)
      by (apply matches_extension_iff; now left).
    unfold matches. rewrite He. repeat split.
    intros Hp. apply matches_filename_iff. now left.
  - intros H. unfold matches.
    destruct (matches_extension file_path c) eqn:E; [|reflexivity].
    apply matches_extension_iff in E. rewrite H in E. simpl in E. tauto.
Qed.

Lemma condition_matches_iff_witness :
  matches ["/"; "t"; "README"] (Scenario.condition_to ["*"] "All") = true
  /\ matches ["/"; "t"; "report.pdf"] (Scenario.condition_to [".PDF"] "Docs") = true
  /\ matches ["/"; "t"; "report.pdf"] (Scenario.condition_to [] "Docs") = false
  /\ matches (cs := PyStr.latin1_casing) ["/"; "t"; "RÉSUMÉ.TXT"]
             {| extension := Some [".txt"]; filename_contains := Some ["résumé"];
                destination := Some "CV"; subfolder_pattern := None |} = true.
Proof.
  split; [|split; [|split]].
  - apply (proj1 (proj2 (condition_matches_iff
                    ["/"; "t"; "README"] (Scenario.condition_to ["*"] "All"))));
      [simpl; now left | reflexivity].
  - apply (proj1 (condition_matches_iff
                    ["/"; "t"; "report.pdf"] (Scenario.condition_to [".PDF"] "Docs"))).
    split; [right; simpl; now left | now left].
  - apply (proj2 (proj2 (condition_matches_iff
                    ["/"; "t"; "report.pdf"] (Scenario.condition_to [] "Docs")))).
    reflexivity.
  - apply (proj1 (condition_matches_iff (cs := PyStr.latin1_casing) _ _)).
    split; [right; simpl; now left|].
    right. exists "résumé". split; [now left|].
    exists "", ".txt". reflexivity.
Defined.

End Matcher.

(* ===================================================================== *)
(** ** Date groups                                                        *)
(* ===================================================================== *)

Section DateGroup.
Import PyPath PyTime Eff PyOS Organizer Spec.

Lemma get_date_group_readable (cfg : Config) (p : Path) (w : world) (n : node) :
  w_fs w !! p = Some n ->
  year_ok (node_mtime n) = true ->
  get_date_group cfg p w =
  Returned (if age_days w n <=? last_week_days cfg then "Last_Week"
            else if age_days w n <=? last_month_days cfg then "Last_Month"
            else "Older") w.
Proof.
  intros H Hy. unfold get_date_group, try_except. run.
  rewrite (run_stat_some _ _ _ H Hy). run. fold (age_days w n).
  destruct (age_days w n <=? last_week_days cfg); [reflexivity|].
  destruct (age_days w n <=? last_month_days cfg); reflexivity.
Qed.

(** Any [OSError] of the read is caught. *)
Lemma get_date_group_caught (cfg : Config) (p : Path) (w : world) (e : exn) :
  stat_mtime p w = Raised e w -> is_OSError e = true ->
  get_date_group cfg p w = Returned "Unknown" (logged w WARNING (MsgNoStats p)).
Proof.
  intros H He. unfold get_date_group, try_except. run.
  rewrite H, He. now run.
Qed.

Lemma get_date_group_unreadable (cfg : Config) (p : Path) (w : world) :
  w_fs w !! p = None ->
  get_date_group cfg p w = Returned "Unknown" (logged w WARNING (MsgNoStats p)).
Proof.
  intros H. now apply (get_date_group_caught cfg p w FileNotFoundError);
    [apply run_stat_none|].
Qed.

Lemma get_date_group_overflow (cfg : Config) (p : Path) (w : world) (n : node) :
  w_fs w !! p = Some n -> tm_ok (node_mtime n) = false ->
  get_date_group cfg p w = Returned "Unknown" (logged w WARNING (MsgNoStats p)).
Proof.
  intros H Ht. apply (get_date_group_caught cfg p w OSError); [|reflexivity].
  rewrite run_stat, H, run_fromtimestamp, Ht.
  destruct (year_ok (node_mtime n)) eqn:Ey; [|reflexivity].
  apply year_ok_tm_ok in Ey. congruence.
Qed.

(** A [ValueError] of the read is not an [OSError]: it gets out. *)
Lemma get_date_group_beyond (cfg : Config) (p : Path) (w : world) (n : node) :
  w_fs w !! p = Some n ->
  year_ok (node_mtime n) = false -> tm_ok (node_mtime n) = true ->
  get_date_group cfg p w = Raised ValueError w.
Proof.
  intros H Hy Ht. unfold get_date_group, try_except. run.
  now rewrite run_stat, H, run_fromtimestamp, Hy, Ht.
Qed.




End DateGroup.

(* ===================================================================== *)
(** ** The conflict resolver                                              *)
(* ===================================================================== *)

Section Resolver.
Import PyPath PyTime Eff PyOS Organizer Spec.

Lemma resolve_conflict_free (cfg : Config) (source destination : Path) (w : world) :
  w_fs w !! destination = None ->
  resolve_conflict cfg source destination w = Returned (Some destination) w.
Proof.
  intros H. unfold resolve_conflict. run. rewrite H.
  rewrite bool_decide_eq_false_2 by (intros [? ?]; discriminate).
  change (negb false) with true. cbv zeta iota. now run.
Qed.

Lemma resolve_conflict_taken (cfg : Config) (source destination : Path) (w : world) :
  present w destination ->
  resolve_conflict cfg source destination w =
  let resolution := default "rename" (conflict_resolution cfg) in
  if String.eqb resolution "skip" then
    Returned None (logged w INFO (MsgSkipping (name source)))
  else if String.eqb resolution "overwrite" then
    Returned (Some destination) (logged w WARNING (MsgOverwriting destination))
  else if String.eqb resolution "rename" then
    Returned (Some (parent destination ++ [renamed w destination]))
             (logged w INFO (MsgRenaming (name source) (renamed w destination)))
  else Returned None w.
Proof.
  intros H. unfold resolve_conflict. run.
  rewrite bool_decide_eq_true_2 by exact H.
  change (negb true) with false. cbv zeta iota.
  destruct (String.eqb _ "skip"); [now run|].
  destruct (String.eqb _ "overwrite"); [now run|].
  destruct (String.eqb _ "rename"); [|now run].
  run. unfold with_name. rewrite name_snoc. reflexivity.
Qed.

(** C6. A destination that does not exist is returned unchanged.  One that
    exists gives: under [skip], no path (the file is not moved); under
    [overwrite], the same destination; under [rename], the destination
    renamed to stem, underscore, time stamp, suffix, the stamp having the
    shape [YYYYMMDD_HHMMSS] and the stem and suffix being those of the
    destination's name. *)
Theorem resolve_conflict_cases (cfg : Config) (source destination : Path) (w : world) :
  (w_fs w !! destination = None ->
     resolve_conflict cfg source destination w = Returned (Some destination) w)
  /\ (present w destination -> conflict_resolution cfg = Some "skip" ->
     resolve_conflict cfg source destination w
     = Returned None (logged w INFO (MsgSkipping (name source))))
  /\ (present w destination -> conflict_resolution cfg = Some "overwrite" ->
     resolve_conflict cfg source destination w
     = Returned (Some destination) (logged w WARNING (MsgOverwriting destination)))
  /\ (present w destination -> conflict_resolution cfg = Some "rename" ->
     resolve_conflict cfg source destination w
     = Returned (Some (parent destination
                       ++ [stem destination +:+ "_" +:+ stamp (w_now w)
                           +:+ suffix destination]))
                (logged w INFO (MsgRenaming (name source) (renamed w destination)))
     /\ stem destination +:+ suffix destination = name destination
     /\ (valid (w_now w) = true -> stamp_shape (w_now w) (stamp (w_now w)))).
Proof.
  split; [apply resolve_conflict_free|].
  split; [|split]; intros He Hp;
    rewrite (resolve_conflict_taken _ _ _ _ He), Hp; simpl; try reflexivity.
  split; [reflexivity|]. split; [apply stem_suffix | apply stamp_has_shape].
Qed.

Lemma resolve_conflict_cases_witness :
  let w := Scenario.taken_world in
  let src := Scenario.notes in
  let dst := ["/"; "t"; "Docs"; "notes.txt"] in
  resolve_conflict (Scenario.one_rule (Some "skip")) src ["/"; "t"; "New"; "notes.txt"] w
  = Returned (Some ["/"; "t"; "New"; "notes.txt"]) w
  /\ resolve_conflict (Scenario.one_rule (Some "skip")) src dst w
     = Returned None (logged w INFO (MsgSkipping "notes.txt"))
  /\ resolve_conflict (Scenario.one_rule (Some "overwrite")) src dst w
     = Returned (Some dst) (logged w WARNING (MsgOverwriting dst))
  /\ resolve_conflict (Scenario.one_rule (Some "rename")) src dst w
     = Returned (Some ["/"; "t"; "Docs"; "notes_20240315_120000.txt"])
                (logged w INFO (MsgRenaming "notes.txt" "notes_20240315_120000.txt"))
  /\ stamp_shape Scenario.clock "20240315_120000".
Proof.
  intros w src dst.
  assert (Hdst : present w dst) by (eexists; reflexivity).
  split; [|split; [|split; [|split]]].
  - apply (proj1 (resolve_conflict_cases (Scenario.one_rule (Some "skip")) src
                    ["/"; "t"; "New"; "notes.txt"] w)). reflexivity.
  - apply (proj1 (proj2 (resolve_conflict_cases
                           (Scenario.one_rule (Some "skip")) src dst w)));
      [exact Hdst | reflexivity].
  - apply (proj1 (proj2 (proj2 (resolve_conflict_cases
                           (Scenario.one_rule (Some "overwrite")) src dst w))));
      [exact Hdst | reflexivity].
  - apply (proj2 (proj2 (proj2 (resolve_conflict_cases
                           (Scenario.one_rule (Some "rename")) src dst w))));
      [exact Hdst | reflexivity].
  - apply (proj2 (proj2 (proj2 (resolve_conflict_cases
                           (Scenario.one_rule (Some "rename")) src dst w))));
      [exact Hdst | reflexivity | reflexivity].
Defined.

End Resolver.

(* ===================================================================== *)
(** ** What the calls leave untouched                                     *)
(* ===================================================================== *)

Section Keeps.
Import PyPath PyTime Eff PyOS Spec.
Context (R : world -> world -> Prop) `{!Frame R}.

Lemma keeps_ret {A} (a : A) : keeps R (mret a : M A).
Proof. intros w. apply frame_refl. Qed.

Lemma keeps_raise {A} (e : exn) : keeps R (raise e : M A).
Proof. intros w. apply frame_refl. Qed.

Lemma keeps_log (l : level) (m : message) : keeps R (log l m).
Proof. intros w. apply frame_log. Qed.

Lemma keeps_get_fs : keeps R get_fs.
Proof. intros w. apply frame_refl. Qed.

Lemma keeps_now : keeps R now.
Proof. intros w. apply frame_refl. Qed.

Lemma keeps_bind {A B} (m : M A) (k : A -> M B) :
  keeps R m -> (forall a, keeps R (k a)) -> keeps R (m ≫= k).
Proof.
  intros Hm Hk w. rewrite run_bind.
  specialize (Hm w). destruct (m w) as [a w1|e w1]; simpl in Hm.
  - eapply frame_trans; [exact Hm | apply Hk].
  - exact Hm.
Qed.

Lemma keeps_try {A} (m : M A) (h : exn -> M A) :
  keeps R m -> (forall e, keeps R (h e)) -> keeps R (try_except m h).
Proof.
  intros Hm Hh w. unfold try_except.
  specialize (Hm w). destruct (m w) as [a w1|e w1]; simpl in Hm.
  - exact Hm.
  - destruct (is_OSError e); [|exact Hm].
    eapply frame_trans; [exact Hm | apply Hh].
Qed.

Lemma keeps_try_Exception {A} (m : M A) (h : exn -> M A) :
  keeps R m -> (forall e, keeps R (h e)) -> keeps R (try_except_Exception m h).
Proof.
  intros Hm Hh w. unfold try_except_Exception.
  specialize (Hm w). destruct (m w) as [a w1|e w1]; simpl in Hm.
  - exact Hm.
  - eapply frame_trans; [exact Hm | apply Hh].
Qed.

Lemma keeps_exists (p : Path) : keeps R (exists_ p).
Proof. intros w. apply frame_refl. Qed.

Lemma keeps_is_dir (p : Path) : keeps R (is_dir p).
Proof. intros w. apply frame_refl. Qed.

Lemma keeps_stat (p : Path) : keeps R (stat_mtime p).
Proof.
  intros w. rewrite run_stat. destruct (w_fs w !! p); [|apply frame_refl].
  rewrite run_fromtimestamp.
  destruct (year_ok _); [|destruct (tm_ok _)]; apply frame_refl.
Qed.

End Keeps.

Lemma keeps_weaken (R R' : Eff.world -> Eff.world -> Prop) {A} (m : Eff.M A) :
  (forall w w', R w w' -> R' w w') -> Spec.keeps R m -> Spec.keeps R' m.
Proof. intros HR Hm w. apply HR, Hm. Qed.

#[local] Ltac frame_step :=
  lazymatch goal with
  | |- Spec.Frame _ => typeclasses eauto
  | |- forall _, _ => intros ?
  | |- Spec.keeps _ (if ?b then _ else _) => destruct b
  | |- Spec.keeps _ (match ?x with _ => _ end) => destruct x
  | |- Spec.keeps _ _ =>
      first
        [ apply keeps_ret | apply keeps_raise | apply keeps_log
        | apply keeps_get_fs | apply keeps_now | apply keeps_exists
        | apply keeps_is_dir | apply keeps_stat
        | apply keeps_bind | apply keeps_try | apply keeps_try_Exception ]
  end.

#[local] Ltac frame := repeat frame_step.

Section Frames.
Import PyPath PyTime Eff PyOS Organizer Spec.

Lemma same_fs_frame : Frame same_fs.
Proof.
  split.
  - now intros w.
  - intros w1 w2 w3 [H1 H1'] [H2 H2']. split; congruence.
  - now intros w l m.
Qed.

Lemma grows_frame : Frame grows.
Proof.
  split.
  - now intros w.
  - intros w1 w2 w3 [H1 H1'] [H2 H2']. split; [now transitivity (w_fs w2) | congruence].
  - now intros w l m.
Qed.

Lemma spares_frame (p : Path) : Frame (spares p).
Proof.
  split.
  - now intros w q n.
  - intros w1 w2 w3 H1 H2 q n Hq Hn. eauto.
  - now intros w l m q n.
Qed.

#[local] Existing Instances same_fs_frame grows_frame spares_frame.

Lemma same_fs_grows (w w' : world) : same_fs w w' -> grows w w'.
Proof. intros [H1 H2]. split; [now rewrite H1 | exact H2]. Qed.

Lemma grows_spares (p : Path) (w w' : world) : grows w w' -> spares p w w'.
Proof.
  intros [H _] q n _ Hn. eapply lookup_weaken; [exact Hn | exact H].
Qed.

Lemma grows_lookup (w w' : world) (q : Path) (n : node) :
  grows w w' -> w_fs w !! q = Some n -> w_fs w' !! q = Some n.
Proof. intros [H _] Hn. eapply lookup_weaken; [exact Hn | exact H]. Qed.

(** The pure readers: date group, sub-folder, conflict resolver,
    destination. *)
Lemma get_date_group_same_fs (cfg : Config) (p : Path) :
  keeps same_fs (get_date_group cfg p).
Proof. unfold get_date_group. frame. Qed.

Lemma create_subfolder_path_same_fs (p : Path) (pattern : option string) :
  keeps same_fs (create_subfolder_path p pattern).
Proof. unfold create_subfolder_path. frame. Qed.

Lemma resolve_conflict_same_fs (cfg : Config) (source destination : Path) :
  keeps same_fs (resolve_conflict cfg source destination).
Proof. unfold resolve_conflict. cbv zeta. frame. Qed.

Lemma destination_dir_of_same_fs {cs : PyStr.Casing} (cfg : Config) (p : Path) (c : Condition) :
  keeps same_fs (destination_dir_of cfg p c).
Proof.
  unfold destination_dir_of. cbv zeta.
  apply keeps_bind; [typeclasses eauto | apply get_date_group_same_fs | intros dg].
  apply keeps_bind; [typeclasses eauto | apply create_subfolder_path_same_fs | intros sp].
  frame.
Qed.

(** Creating directories and probing a file only add entries. *)
Lemma mkdir_chain_grows (ps : list Path) : keeps grows (mkdir_chain ps).
Proof.
  induction ps as [|p ps IH]; intros w; [apply frame_refl|].
  cbn [mkdir_chain]. run.
  destruct (w_fs w !! p) as [[t l|t]|] eqn:E.
  - apply frame_refl.
  - apply IH.
  - run. eapply frame_trans; [|apply IH].
    split; [|reflexivity]. simpl. now apply insert_subseteq.
Qed.

Lemma mkdir_parents_grows (p : Path) : keeps grows (mkdir_parents p).
Proof. apply mkdir_chain_grows. Qed.

Lemma open_append_grows (p : Path) : keeps grows (open_append p).
Proof.
  intros w. unfold open_append. run.
  destruct (w_fs w !! p) as [[t [|]|t]|] eqn:E; try apply frame_refl.
  destruct (w_fs w !! parent p) as [[t l|t]|]; try apply frame_refl.
  run. split; [|reflexivity]. simpl. now apply insert_subseteq.
Qed.

Lemma should_process_file_grows (p : Path) : keeps grows (should_process_file p).
Proof.
  unfold should_process_file.
  apply keeps_bind; [typeclasses eauto | frame | intros d].
  destruct (_ || _ || _); [frame|].
  apply keeps_try; [typeclasses eauto | | frame].
  apply keeps_bind; [typeclasses eauto | apply open_append_grows | frame].
Qed.

End Frames.

#[global] Existing Instances same_fs_frame grows_frame spares_frame.

(* ===================================================================== *)
(** ** Default and unknown conflict policies                              *)
(* ===================================================================== *)

Section Policies.
Import PyPath PyTime Eff PyOS Organizer Spec.

(** Chaining along a frame at one world, knowing what the first
    computation returned. *)
Lemma bind_rel (R : world -> world -> Prop) `{!Frame R} {A B}
      (m : M A) (k : A -> M B) (w : world) :
  R w (outcome_world (m w)) ->
  (forall a w1, m w = Returned a w1 -> R w1 (outcome_world (k a w1))) ->
  R w (outcome_world ((m ≫= k) w)).
Proof.
  intros Hm Hk. rewrite run_bind. destruct (m w) as [a w1|e w1]; simpl in Hm.
  - eapply frame_trans; [exact Hm | now apply Hk].
  - exact Hm.
Qed.

Lemma resolve_conflict_unknown (cfg : Config) (source destination : Path)
      (w : world) (v : string) :
  conflict_resolution cfg = Some v ->
  v <> "skip" -> v <> "overwrite" -> v <> "rename" ->
  resolve_conflict cfg source destination w =
  Returned (if bool_decide (present w destination) then None else Some destination) w.
Proof.
  intros Hv H1 H2 H3.
  destruct (decide (present w destination)) as [Hp|Hp].
  - rewrite (resolve_conflict_taken _ _ _ _ Hp), Hv. simpl.
    rewrite bool_decide_eq_true_2 by exact Hp.
    apply String.eqb_neq in H1, H2, H3. now rewrite H1, H2, H3.
  - rewrite bool_decide_eq_false_2 by exact Hp.
    apply resolve_conflict_free. unfold present in Hp.
    destruct (w_fs w !! destination); [exfalso; eauto | reflexivity].
Qed.

(** Moving a regular file to a path that does not exist touches no other
    entry. *)
Lemma shutil_move_fresh (src dst : Path) (w : world) (t : datetime) (l : bool) :
  w_fs w !! src = Some (File t l) ->
  w_fs w !! dst = None ->
  spares src w (outcome_world (shutil_move src dst w)).
Proof.
  intros Hsrc Hdst. unfold shutil_move, real_destination. run.
  rewrite Hdst. simpl. run. rewrite Hsrc.
  destruct (w_fs w !! parent dst) as [[t' l'|t']|]; run; simpl;
    try apply frame_refl.
  intros q n Hq Hn. simpl.
  rewrite lookup_insert_ne by congruence.
  now rewrite lookup_delete_ne by congruence.
Qed.

Lemma apply_condition_unknown_spares {cs : PyStr.Casing} (cfg : Config) (file_path : Path) (dry : bool)
      (c : Condition) (w : world) (v : string) (t : datetime) (l : bool) :
  conflict_resolution cfg = Some v ->
  v <> "skip" -> v <> "overwrite" -> v <> "rename" ->
  w_fs w !! file_path = Some (File t l) ->
  spares file_path w (outcome_world (apply_condition cfg file_path dry c w)).
Proof.
  intros Hv H1 H2 H3 Hsrc. unfold apply_condition.
  apply bind_rel; [typeclasses eauto | |intros D w1 HD].
  { apply grows_spares, same_fs_grows, destination_dir_of_same_fs. }
  assert (Hsrc1 : w_fs w1 !! file_path = Some (File t l)).
  { pose proof (destination_dir_of_same_fs cfg file_path c w) as [Hfs _].
    rewrite HD in Hfs. simpl in Hfs. now rewrite Hfs. }
  apply bind_rel; [typeclasses eauto | |intros [] w2 Hmk].
  { apply grows_spares, mkdir_parents_grows. }
  assert (Hsrc2 : w_fs w2 !! file_path = Some (File t l)).
  { pose proof (mkdir_parents_grows D w1) as Hg. rewrite Hmk in Hg.
    exact (grows_lookup _ _ _ _ Hg Hsrc1). }
  rewrite run_bind, (resolve_conflict_unknown _ _ _ _ _ Hv H1 H2 H3).
  case_bool_decide as Hp; [apply frame_refl|].
  assert (Hfree : w_fs w2 !! joinpath D (name file_path) = None).
  { unfold present in Hp.
    destruct (w_fs w2 !! joinpath D (name file_path)); [exfalso; eauto | reflexivity]. }
  destruct dry.
  - run. apply frame_log.
  - unfold try_except. run.
    pose proof (shutil_move_fresh _ _ _ _ _ Hsrc2 Hfree) as Hmv.
    destruct (shutil_move _ _ w2) as [[] w3|e w3]; simpl in Hmv;
      [|destruct (is_OSError e)];
      intros q n Hq Hn; run; simpl; now apply Hmv.
Qed.

(** C9. When the [conflict_resolution] key is absent the resolver behaves
    as under ["rename"].  When its value is none of ["skip"],
    ["overwrite"], ["rename"], the resolver returns no path for a
    destination that exists, the only path it ever returns is a destination
    that does not exist, and applying a condition to a regular file leaves
    every other entry of the file system as it was: the file is never moved
    onto an existing path. *)
Theorem resolve_conflict_default_and_unknown {cs : PyStr.Casing}
        (cfg : Config) (source destination : Path) (w : world) :
  (conflict_resolution cfg = None ->
     resolve_conflict cfg source destination w
     = resolve_conflict (with_policy cfg (Some "rename")) source destination w)
  /\ (forall v, conflict_resolution cfg = Some v ->
        v <> "skip" -> v <> "overwrite" -> v <> "rename" ->
        (present w destination ->
           resolve_conflict cfg source destination w = Returned None w)
        /\ (forall r w', resolve_conflict cfg source destination w = Returned (Some r) w' ->
              r = destination /\ w' = w /\ ~ present w r)
        /\ (forall file_path dry c t l,
              w_fs w !! file_path = Some (File t l) ->
              spares file_path w (outcome_world (apply_condition cfg file_path dry c w)))).
Proof.
  split.
  - intros Hnone. unfold resolve_conflict, with_policy. simpl. now rewrite Hnone.
  - intros v Hv H1 H2 H3. split; [|split].
    + intros Hp. rewrite (resolve_conflict_unknown _ _ _ _ _ Hv H1 H2 H3).
      now rewrite bool_decide_eq_true_2 by exact Hp.
    + intros r w'. rewrite (resolve_conflict_unknown _ _ _ _ _ Hv H1 H2 H3).
      case_bool_decide as Hp; intros Heq; [discriminate|].
      injection Heq as <- <-. auto.
    + intros file_path dry c t l Hsrc.
      eapply apply_condition_unknown_spares; eauto.
Qed.

Lemma resolve_conflict_default_and_unknown_witness :
  let w := Scenario.taken_world in
  let src := Scenario.notes in
  let dst := ["/"; "t"; "Docs"; "notes.txt"] in
  resolve_conflict (Scenario.one_rule None) src dst w
  = Returned (Some ["/"; "t"; "Docs"; "notes_20240315_120000.txt"])
             (logged w INFO (MsgRenaming "notes.txt" "notes_20240315_120000.txt"))
  /\ resolve_conflict (Scenario.one_rule (Some "bogus")) src dst w = Returned None w
  /\ spares src w
       (outcome_world
          (apply_condition (Scenario.one_rule (Some "bogus")) src false Scenario.to_docs w)).
Proof.
  intros w src dst. split; [|split].
  - rewrite (proj1 (resolve_conflict_default_and_unknown
                      (Scenario.one_rule None) src dst w) eq_refl).
    reflexivity.
  - apply (proj2 (resolve_conflict_default_and_unknown
                    (Scenario.one_rule (Some "bogus")) src dst w) "bogus");
      [reflexivity | discriminate | discriminate | discriminate
      | eexists; reflexivity].
  - apply (proj2 (resolve_conflict_default_and_unknown
                    (Scenario.one_rule (Some "bogus")) src dst w) "bogus"
             eq_refl ltac:(discriminate) ltac:(discriminate) ltac:(discriminate))
      with (t := Scenario.three_days_ago) (l := false).
    reflexivity.
Defined.

End Policies.

(* ===================================================================== *)
(** ** Exclusion before classification                                    *)
(* ===================================================================== *)

Section Exclusion.
Import PyPath PyTime Eff PyOS Organizer Spec.

Lemma is_directory_iff (w : world) (p : Path) :
  from_option node_is_dir false (w_fs w !! p) = true <-> is_directory w p.
Proof.
  unfold is_directory. destruct (w_fs w !! p) as [[t l|t]|]; simpl.
  - split; [discriminate | intros [t' H]; discriminate].
  - split; [eauto | reflexivity].
  - split; [discriminate | intros [t' H]; discriminate].
Qed.

(** Whatever opening a file raises is an [OSError]. *)
Lemma open_append_raises (p : Path) (w w' : world) (e : exn) :
  open_append p w = Raised e w' -> is_OSError e = true.
Proof.
  unfold open_append. run.
  destruct (w_fs w !! p) as [[t [|]|t]|]; run; try discriminate;
    try (intros H; now injection H as <- _).
  destruct (w_fs w !! parent p) as [[t l|t]|]; run; try discriminate;
    intros H; now injection H as <- _.
Qed.

(** [should_process_file] always returns, and returns [False] exactly
    for the excluded entries. *)
Lemma should_process_file_excluded (file_path : Path) (w : world) :
  excluded w file_path ->
  exists w', should_process_file file_path w = Returned false w'.
Proof.
  intros Hex. unfold should_process_file. run.
  destruct (from_option node_is_dir false (w_fs w !! file_path)) eqn:Ed;
    [eexists; reflexivity|].
  destruct (PyStr.startswith (name file_path) ".") eqn:Eh; [eexists; reflexivity|].
  destruct (PyStr.startswith (name file_path) "~$") eqn:El; [eexists; reflexivity|].
  simpl. destruct Hex as [Hd | [Hh | [Hl | [e [w' Ho]]]]]; try congruence.
  - apply is_directory_iff in Hd. congruence.
  - unfold try_except. run. rewrite Ho, (open_append_raises _ _ _ _ Ho). run.
    eexists; reflexivity.
Qed.

Lemma should_process_file_admitted (file_path : Path) (w : world) :
  ~ excluded w file_path ->
  exists w', should_process_file file_path w = Returned true w'.
Proof.
  intros Hex. unfold should_process_file. run.
  destruct (from_option node_is_dir false (w_fs w !! file_path)) eqn:Ed.
  { exfalso. apply Hex. left. now apply is_directory_iff. }
  destruct (PyStr.startswith (name file_path) ".") eqn:Eh.
  { exfalso. apply Hex. right. now left. }
  destruct (PyStr.startswith (name file_path) "~$") eqn:El.
  { exfalso. apply Hex. right. right. now left. }
  simpl. unfold try_except. run.
  destruct (open_append file_path w) as [[] w'|e w'] eqn:Eo.
  - run. eexists; reflexivity.
  - exfalso. apply Hex. right. right. right. eauto.
Qed.

Lemma excluded_dec (w : world) (file_path : Path) :
  excluded w file_path \/ ~ excluded w file_path.
Proof.
  unfold excluded.
  destruct (from_option node_is_dir false (w_fs w !! file_path)) eqn:Ed;
    [left; left; now apply is_directory_iff|].
  destruct (PyStr.startswith (name file_path) ".") eqn:Eh; [left; auto|].
  destruct (PyStr.startswith (name file_path) "~$") eqn:El; [left; auto|].
  destruct (open_append file_path w) as [[] w'|e w'] eqn:Eo.
  - right. intros [Hd | [Hh | [Hl | [e [w'' Ho]]]]]; try congruence.
    apply is_directory_iff in Hd. congruence.
  - left. right. right. right. eauto.
Qed.

Lemma process_file_excluded {cs : PyStr.Casing} (cfg : Config) (file_path : Path) (dry : bool) (w w' : world) :
  should_process_file file_path w = Returned false w' ->
  process_file cfg file_path dry w = Returned false w'.
Proof. intros H. unfold process_file. rewrite run_bind, H. reflexivity. Qed.

Lemma process_file_admitted {cs : PyStr.Casing} (cfg : Config) (file_path : Path) (dry : bool) (w w' : world) :
  should_process_file file_path w = Returned true w' ->
  process_file cfg file_path dry w
  = rule_loop cfg file_path dry (default [] (rules cfg)) false w'.
Proof. intros H. unfold process_file. rewrite run_bind, H. reflexivity. Qed.

(** C8. An entry is turned away by [should_process_file] if and only if it
    is a directory, or its name starts with ["."], or its name starts with
    ["~$"], or it cannot be opened for append.  An entry turned away is
    answered [False] whatever the rules are, none of them being looked at;
    every other entry goes on to the rule loop. *)
Theorem exclusion_iff {cs : PyStr.Casing} (file_path : Path) (w : world) :
  ((exists w', should_process_file file_path w = Returned false w')
   <-> excluded w file_path)
  /\ (excluded w file_path ->
      exists w', forall cfg dry, process_file cfg file_path dry w = Returned false w')
  /\ (~ excluded w file_path ->
      exists w', should_process_file file_path w = Returned true w'
        /\ forall cfg dry,
             process_file cfg file_path dry w
             = rule_loop cfg file_path dry (default [] (rules cfg)) false w').
Proof.
  split; [split|split].
  - intros [w' Hf]. destruct (excluded_dec w file_path) as [H|H]; [exact H|].
    destruct (should_process_file_admitted _ _ H) as [w'' Ht]. congruence.
  - apply should_process_file_excluded.
  - intros H. destruct (should_process_file_excluded _ _ H) as [w' Hf].
    exists w'. intros cfg dry. now apply process_file_excluded.
  - intros H. destruct (should_process_file_admitted _ _ H) as [w' Ht].
    exists w'. split; [exact Ht|]. intros cfg dry. now apply process_file_admitted.
Qed.

Lemma exclusion_iff_witness :
  let w := Scenario.mixed_world in
  excluded w ["/"; "t"; "sub"]
  /\ excluded w ["/"; "t"; ".hidden"]
  /\ excluded w ["/"; "t"; "~$draft.txt"]
  /\ excluded w ["/"; "t"; "busy.txt"]
  /\ (exists w', forall cfg dry,
        process_file cfg ["/"; "t"; ".hidden"] dry w = Returned false w').
Proof.
  intros w.
  assert (Hhidden : exists w', should_process_file ["/"; "t"; ".hidden"] w = Returned false w')
    by (eexists; reflexivity).
  split; [|split; [|split; [|split]]].
  - apply (proj1 (exclusion_iff ["/"; "t"; "sub"] w)). eexists; reflexivity.
  - apply (proj1 (exclusion_iff ["/"; "t"; ".hidden"] w)). exact Hhidden.
  - apply (proj1 (exclusion_iff ["/"; "t"; "~$draft.txt"] w)). eexists; reflexivity.
  - apply (proj1 (exclusion_iff ["/"; "t"; "busy.txt"] w)). eexists; reflexivity.
  - apply (proj1 (proj2 (exclusion_iff ["/"; "t"; ".hidden"] w))).
    apply (proj1 (exclusion_iff ["/"; "t"; ".hidden"] w)). exact Hhidden.
Defined.

End Exclusion.

(* ===================================================================== *)
(** ** The two loops of [process_file]                                    *)
(* ===================================================================== *)

Section Loops.
Import PyPath PyTime Eff PyOS Organizer Spec.

Lemma condition_loop_skip {cs : PyStr.Casing} (cfg : Config) (file_path : Path) (dry : bool)
      (pre rest : list Condition) (fp : bool) :
  Forall (fun c => matches file_path c = false) pre ->
  condition_loop cfg file_path dry (pre ++ rest) fp
  = condition_loop cfg file_path dry rest fp.
Proof.
  induction 1 as [|c pre Hc _ IH]; [reflexivity|].
  simpl. now rewrite Hc.
Qed.

Lemma condition_loop_break {cs : PyStr.Casing} (cfg : Config) (file_path : Path) (dry : bool)
      (c : Condition) (rest : list Condition) (fp : bool) (w w' : world) :
  matches file_path c = true ->
  apply_condition cfg file_path dry c w = Returned Break w' ->
  condition_loop cfg file_path dry (c :: rest) fp w = Returned true w'.
Proof. intros Hm Ha. simpl. rewrite Hm, run_bind, Ha. reflexivity. Qed.

Lemma condition_loop_continue {cs : PyStr.Casing} (cfg : Config) (file_path : Path) (dry : bool)
      (c : Condition) (rest : list Condition) (fp : bool) (w w' : world) :
  matches file_path c = true ->
  apply_condition cfg file_path dry c w = Returned Continue w' ->
  condition_loop cfg file_path dry (c :: rest) fp w
  = condition_loop cfg file_path dry rest fp w'.
Proof. intros Hm Ha. simpl. rewrite Hm, run_bind, Ha. reflexivity. Qed.

Lemma rule_loop_cons {cs : PyStr.Casing} (cfg : Config) (file_path : Path) (dry : bool)
      (rule : Rule) (rest : list Rule) (fp : bool) (w : world) :
  rule_loop cfg file_path dry (rule :: rest) fp w
  = match condition_loop cfg file_path dry (default [] (conditions rule)) fp w with
    | Returned fp' w' => rule_loop cfg file_path dry rest fp' w'
    | Raised e w' => Raised e w'
    end.
Proof. reflexivity. Qed.

(** C1, evaluated on the code.  With two rules that both match
    [notes.txt], the first sending [.txt] files to [Docs] and the second
    everything to [Other], the first matching condition is the one of the
    first rule, and a live run moves the file to [Docs].  The second rule
    is then run all the same, on the path the file has left: the date
    group cannot be read and a warning is logged, the directory [Other] is
    made, the move fails and an error is logged.  In a dry run both
    destinations are made and both moves are reported.  The [break] ends
    the loop over the conditions of one rule only. *)
Theorem later_rule_runs_on_moved_file :
  let cfg := Scenario.two_rules (Some "rename") in
  let w := Scenario.plain_world in
  let docs := ["/"; "t"; "Docs"] in
  let other := ["/"; "t"; "Other"] in
  first_match Scenario.notes (default [] (rules cfg)) = Some Scenario.to_docs
  /\ w_fs w !! docs = None /\ w_fs w !! other = None
  /\ (exists w',
        process_file cfg Scenario.notes false w = Returned true w'
        /\ w_fs w' !! (docs ++ ["notes.txt"]) = Some (File Scenario.three_days_ago false)
        /\ w_fs w' !! Scenario.notes = None
        /\ w_fs w' !! other = Some (Dir Scenario.clock)
        /\ w_fs w' !! (other ++ ["notes.txt"]) = None
        /\ w_log w' = [ (INFO, MsgMoved Scenario.notes (docs ++ ["notes.txt"]));
                        (WARNING, MsgNoStats Scenario.notes);
                        (ERROR, MsgMoveError Scenario.notes) ])
  /\ (exists w',
        process_file cfg Scenario.notes true w = Returned true w'
        /\ w_fs w' !! docs = Some (Dir Scenario.clock)
        /\ w_fs w' !! other = Some (Dir Scenario.clock)
        /\ w_log w' = [ (INFO, MsgDryRun Scenario.notes (docs ++ ["notes.txt"]));
                        (INFO, MsgDryRun Scenario.notes (other ++ ["notes.txt"])) ]).
Proof.
  intros cfg w docs other.
  split; [reflexivity|]. split; [reflexivity|]. split; [reflexivity|]. split.
  - eexists. split; [vm_compute; reflexivity|]. repeat split; reflexivity.
  - eexists. split; [vm_compute; reflexivity|]. repeat split; reflexivity.
Qed.

End Loops.

(* ===================================================================== *)
(** ** Conditions that match but do not complete                        *)
(* ===================================================================== *)

Section SkipPolicy.
Import PyPath PyTime Eff PyOS Organizer Spec.

Lemma files_loop_skipped {cs : PyStr.Casing} (cfg : Config) (dry : bool) (file_path : Path)
      (rest : list Path) (p s : nat) (w w' : world) :
  process_file cfg file_path dry w = Returned false w' ->
  files_loop cfg dry (file_path :: rest) p s w = files_loop cfg dry rest p (S s) w'.
Proof. intros H. simpl. rewrite run_bind, H. reflexivity. Qed.

Lemma files_loop_processed {cs : PyStr.Casing} (cfg : Config) (dry : bool) (file_path : Path)
      (rest : list Path) (p s : nat) (w w' : world) :
  process_file cfg file_path dry w = Returned true w' ->
  files_loop cfg dry (file_path :: rest) p s w = files_loop cfg dry rest (S p) s w'.
Proof. intros H. simpl. rewrite run_bind, H. reflexivity. Qed.

Lemma present_after {cs : PyStr.Casing} (cfg : Config) (file_path : Path) (c : Condition)
      (w w1 w2 : world) (D q : Path) :
  destination_dir_of cfg file_path c w = Returned D w1 ->
  mkdir_parents D w1 = Returned tt w2 ->
  forall n, w_fs w !! q = Some n -> w_fs w2 !! q = Some n.
Proof.
  intros HD Hmk n Hn.
  pose proof (destination_dir_of_same_fs cfg file_path c w) as [Hfs _].
  rewrite HD in Hfs. simpl in Hfs.
  pose proof (mkdir_parents_grows D w1) as Hg. rewrite Hmk in Hg.
  apply (grows_lookup _ _ _ _ Hg). now rewrite Hfs.
Qed.

(** C7, evaluated on the code.  Under the policy [skip], with one rule
    whose two conditions both match [notes.txt], the first sending it to
    [Docs], where a file of that name already is, and the second to
    [Other]: the skip is logged for the first condition, and the second
    condition then moves the file to [Other].  The file has left its place
    and the run counts it as processed; the only entry counted as skipped
    is the directory [Docs]. *)
Theorem skipped_file_is_moved_by_later_condition :
  let cfg := Scenario.two_conditions (Some "skip") in
  let w := Scenario.taken_world in
  let taken := ["/"; "t"; "Docs"; "notes.txt"] in
  let other := ["/"; "t"; "Other"; "notes.txt"] in
  conflict_resolution cfg = Some "skip"
  /\ first_match Scenario.notes (default [] (rules cfg)) = Some Scenario.to_docs
  /\ destination_dir_of cfg Scenario.notes Scenario.to_docs w
     = Returned ["/"; "t"; "Docs"] w
  /\ present w taken
  /\ (exists w',
        process_file cfg Scenario.notes false w = Returned true w'
        /\ w_fs w' !! Scenario.notes = None
        /\ w_fs w' !! other = Some (File Scenario.three_days_ago false)
        /\ w_fs w' !! taken = w_fs w !! taken
        /\ w_log w' = [ (INFO, MsgSkipping "notes.txt");
                        (INFO, MsgMoved Scenario.notes other) ])
  /\ snapshot cfg w = [ Scenario.notes; ["/"; "t"; "Docs"] ]
  /\ (exists w', organize_files cfg (Some false) w = Returned (Some (1%nat, 1%nat)) w').
Proof.
  intros cfg w taken other.
  split; [reflexivity|]. split; [reflexivity|]. split; [reflexivity|].
  split; [eexists; reflexivity|]. split; [|split].
  - eexists. split; [vm_compute; reflexivity|]. repeat split; reflexivity.
  - vm_compute. reflexivity.
  - eexists. vm_compute. reflexivity.
Qed.

(** X20. A condition that matches but does not complete does not end its
    rule.  When the conflict resolver gives no path, the body of the loop
    is left by [continue] in the world the resolver leaves; when the move
    of a live run fails with an [OSError], the error is caught and logged
    and the body is left by [continue] as well.  Either way the remaining
    conditions of the rule are tried from that world with the flag as it
    was, and when none of them matches the rule ends with the flag it
    started with. *)
Theorem unfinished_condition_hands_over {cs : PyStr.Casing}
        (cfg : Config) (src : Path) (c : Condition) (rest : list Condition)
        (w w1 w2 w3 : world) (D : Path) (r : option Path) :
  matches src c = true ->
  destination_dir_of cfg src c w = Returned D w1 ->
  mkdir_parents D w1 = Returned tt w2 ->
  resolve_conflict cfg src (joinpath D (name src)) w2 = Returned r w3 ->
  (r = None ->
   forall dry fp,
     apply_condition cfg src dry c w = Returned Continue w3
     /\ condition_loop cfg src dry (c :: rest) fp w
        = condition_loop cfg src dry rest fp w3
     /\ (Forall (fun c' => matches src c' = false) rest ->
         condition_loop cfg src dry (c :: rest) fp w = Returned fp w3))
  /\ (forall d e w4,
        r = Some d -> shutil_move src d w3 = Raised e w4 -> is_OSError e = true ->
        forall fp,
          let w5 := logged w4 ERROR (MsgMoveError src) in
          apply_condition cfg src false c w = Returned Continue w5
          /\ condition_loop cfg src false (c :: rest) fp w
             = condition_loop cfg src false rest fp w5
          /\ (Forall (fun c' => matches src c' = false) rest ->
              condition_loop cfg src false (c :: rest) fp w = Returned fp w5)).
Proof.
  intros Hm HD Hmk Hres.
  assert (Hend : forall dry fp w',
             apply_condition cfg src dry c w = Returned Continue w' ->
             condition_loop cfg src dry (c :: rest) fp w
             = condition_loop cfg src dry rest fp w'
             /\ (Forall (fun c' => matches src c' = false) rest ->
                 condition_loop cfg src dry (c :: rest) fp w = Returned fp w')).
  { intros dry fp w' Ha.
    pose proof (condition_loop_continue cfg src dry c rest fp w w' Hm Ha) as Hnext.
    split; [exact Hnext|]. intros Hrest. rewrite Hnext.
    rewrite <- (app_nil_r rest), (condition_loop_skip _ _ _ _ _ _ Hrest).
    reflexivity. }
  split.
  - intros -> dry fp.
    assert (Ha : apply_condition cfg src dry c w = Returned Continue w3).
    { unfold apply_condition. rewrite run_bind, HD, run_bind, Hmk, run_bind, Hres.
      reflexivity. }
    split; [exact Ha | now apply Hend].
  - intros d e w4 -> Hmv He fp w5.
    assert (Ha : apply_condition cfg src false c w = Returned Continue w5).
    { unfold apply_condition. rewrite run_bind, HD, run_bind, Hmk, run_bind, Hres.
      unfold try_except. rewrite run_bind, Hmv, He. reflexivity. }
    split; [exact Ha | now apply Hend].
Qed.

Lemma unfinished_condition_hands_over_witness :
  let ghost := ["/"; "t"; "ghost.txt"] in
  let w := Scenario.plain_world in
  let w1 := logged w WARNING (MsgNoStats ghost) in
  let w2 := with_fs w1 (<[ ["/"; "t"; "Other"] := Dir Scenario.clock ]> (w_fs w)) in
  condition_loop (Scenario.one_rule None) ghost false [Scenario.to_other] true w
  = Returned true (logged w2 ERROR (MsgMoveError ghost))
  /\ apply_condition (Scenario.one_rule (Some "skip")) Scenario.notes false
                     Scenario.to_docs Scenario.taken_world
     = Returned Continue (logged Scenario.taken_world INFO (MsgSkipping "notes.txt")).
Proof.
  intros ghost w w1 w2. split.
  - apply (proj2 (unfinished_condition_hands_over (cs := PyStr.ascii_casing)
                    (Scenario.one_rule None) ghost Scenario.to_other []
                    w w1 w2 w2 ["/"; "t"; "Other"] (Some ["/"; "t"; "Other"; "ghost.txt"])
                    eq_refl eq_refl eq_refl eq_refl)
             ["/"; "t"; "Other"; "ghost.txt"] FileNotFoundError w2
             eq_refl eq_refl eq_refl true).
    constructor.
  - apply (proj1 (unfinished_condition_hands_over (cs := PyStr.ascii_casing)
                    (Scenario.one_rule (Some "skip")) Scenario.notes Scenario.to_docs []
                    Scenario.taken_world Scenario.taken_world Scenario.taken_world
                    (logged Scenario.taken_world INFO (MsgSkipping "notes.txt"))
                    ["/"; "t"; "Docs"] None
                    eq_refl eq_refl eq_refl eq_refl)
             eq_refl false false).
Defined.

End SkipPolicy.

(* ===================================================================== *)
(** ** The summary counts of [organize_files]                             *)
(* ===================================================================== *)

Section Counts.
Import PyPath PyTime Eff PyOS Organizer Spec.


Lemma iterdir_logged (p : Path) (w : world) (l : level) (m : message) :
  iterdir p (logged w l m)
  = match iterdir p w with
    | Returned entries _ => Returned entries (logged w l m)
    | Raised e _ => Raised e (logged w l m)
    end.
Proof.
  unfold iterdir. rewrite !run_bind, !run_get_fs. simpl.
  destruct (w_fs w !! p) as [[t lk|t]|]; reflexivity.
Qed.





End Counts.

(* ===================================================================== *)
(** ** Dry runs                                                           *)
(* ===================================================================== *)

Section DryRun.
Import PyPath PyTime Eff PyOS Organizer Spec.

Lemma apply_condition_dry_grows {cs : PyStr.Casing} (cfg : Config) (file_path : Path) (c : Condition) :
  keeps grows (apply_condition cfg file_path true c).
Proof.
  unfold apply_condition.
  apply keeps_bind; [typeclasses eauto | | intros D].
  { eapply keeps_weaken; [apply same_fs_grows | apply destination_dir_of_same_fs]. }
  apply keeps_bind; [typeclasses eauto | apply mkdir_parents_grows | intros []].
  apply keeps_bind; [typeclasses eauto | | intros [d|]; frame].
  eapply keeps_weaken; [apply same_fs_grows | apply resolve_conflict_same_fs].
Qed.

Lemma condition_loop_dry_grows {cs : PyStr.Casing} (cfg : Config) (file_path : Path)
      (conds : list Condition) (fp : bool) :
  keeps grows (condition_loop cfg file_path true conds fp).
Proof.
  induction conds as [|c rest IH]; simpl; [frame|].
  destruct (matches file_path c); [|exact IH].
  apply keeps_bind; [typeclasses eauto | apply apply_condition_dry_grows |].
  intros [|]; [frame | exact IH].
Qed.

Lemma rule_loop_dry_grows {cs : PyStr.Casing} (cfg : Config) (file_path : Path) (rs : list Rule) :
  forall fp, keeps grows (rule_loop cfg file_path true rs fp).
Proof.
  induction rs as [|r rest IH]; intros fp; simpl; [frame|].
  apply keeps_bind; [typeclasses eauto | apply condition_loop_dry_grows | intros fp'].
  apply IH.
Qed.

(** What a dry run does keep: every entry of the file system stays where
    it is and as it is; no file is moved, renamed or overwritten. *)
Lemma process_file_dry_grows {cs : PyStr.Casing} (cfg : Config) (file_path : Path) :
  keeps grows (process_file cfg file_path true).
Proof.
  unfold process_file.
  apply keeps_bind; [typeclasses eauto | apply should_process_file_grows | intros ok].
  destruct (negb ok); [frame | apply rule_loop_dry_grows].
Qed.

(** C2, evaluated on the code.  In a dry run over a directory holding
    [notes.txt], with one rule sending [.txt] files to [Docs], the file is
    reported and left in place, yet the directory [Docs], which did not
    exist, has been created: [mkdir] runs before the dry-run test. *)
Theorem dry_run_creates_destination_directory :
  let cfg := Scenario.one_rule (Some "rename") in
  let w := Scenario.plain_world in
  let docs := ["/"; "t"; "Docs"] in
  w_fs w !! docs = None
  /\ exists w',
       process_file cfg Scenario.notes true w = Returned true w'
       /\ w_fs w' !! docs = Some (Dir Scenario.clock)
       /\ w_fs w' !! Scenario.notes = w_fs w !! Scenario.notes
       /\ w_log w' = [(INFO, MsgDryRun Scenario.notes (docs ++ ["notes.txt"]))].
Proof.
  intros cfg w docs. split; [reflexivity|].
  eexists. split; [vm_compute; reflexivity|].
  repeat split; reflexivity.
Qed.

(** C3, evaluated on the code.  In a live run over [report.txt] and
    [notes.txt], with a first rule sending [.txt] files to [Docs] and a
    second rule filing every file by year, the first file is moved by the
    first rule; the second rule then matches it again, [get_date_group]
    falls back on the warning, but [create_subfolder_path] reads the
    modification time of the file that is no longer there and the
    [FileNotFoundError] ends the whole run: the other file is never
    looked at and no summary is produced. *)
Theorem unreadable_time_in_subfolder_aborts_run :
  exists w',
    organize_files Scenario.type_then_year (Some false) Scenario.two_files_world
    = Raised FileNotFoundError w'
    /\ snapshot Scenario.type_then_year Scenario.two_files_world
       = [Scenario.report; Scenario.notes]
    /\ w_fs w' !! ["/"; "t"; "Docs"; "report.txt"] = Some (File Scenario.ten_days_ago false)
    /\ w_fs w' !! Scenario.notes = Some (File Scenario.three_days_ago false)
    /\ w_log w' = [ (INFO, MsgStarting ["/"; "t"] false);
                    (INFO, MsgMoved Scenario.report ["/"; "t"; "Docs"; "report.txt"]);
                    (WARNING, MsgNoStats Scenario.report) ].
Proof.
  eexists. split; [vm_compute; reflexivity|].
  repeat split; reflexivity.
Qed.

End DryRun.

(* ===================================================================== *)
(** ** Replacing tokens one after the other                               *)
(* ===================================================================== *)

Section Replacing.
Import Template.







Lemma lacks_blocks (chars : string) (x : ascii) (o a : string) :
  char_in x chars = true -> lacks chars a = true -> blocks (String x o) a = true.
Proof.
  intros Hx. induction a as [|c a IH]; [reflexivity|].
  cbn [lacks blocks clash]. rewrite andb_true_iff, negb_true_iff. intros [Hc Ha].
  rewrite IH by exact Ha. rewrite andb_true_r.
  destruct (Ascii.eqb_spec x c) as [->|_]; [congruence | reflexivity].
Qed.






End Replacing.

(* ===================================================================== *)
(** ** Sub-folder patterns                                                *)
(* ===================================================================== *)

Section Subfolder.
Import PyPath PyTime Eff PyOS Organizer Spec Template.



Lemma date_text_blocks (x : ascii) (o : string) (ps : list date_piece) (p : date_piece)
      (s : string) :
  forallb date_text_ok ps = true -> In p ps -> p = Text s ->
  char_in x "YMDH" = true -> blocks (String x o) s = true.
Proof.
  intros Hok Hin -> Hx. rewrite forallb_forall in Hok.
  apply (lacks_blocks "YMDH"); [exact Hx | exact (Hok _ Hin)].
Qed.









End Subfolder.

(* ===================================================================== *)
(** ** Destination templates                                              *)
(* ===================================================================== *)

Section Destination.
Import PyPath PyTime Eff PyOS Organizer Spec Template Further.












End Destination.

(* ===================================================================== *)
(** ** Files that match nothing, runs that move nothing                   *)
(* ===================================================================== *)

Section Unmatched.
Import PyPath PyTime Eff PyOS Organizer Spec Further.

Lemma condition_loop_unmatched {cs : PyStr.Casing} (cfg : Config) (file_path : Path) (dry : bool)
      (conds : list Condition) (fp : bool) (w : world) :
  Forall (fun c => matches file_path c = false) conds ->
  condition_loop cfg file_path dry conds fp w = Returned fp w.
Proof.
  intros H. rewrite <- (app_nil_r conds), (condition_loop_skip _ _ _ _ _ _ H).
  reflexivity.
Qed.

Lemma rule_loop_unmatched {cs : PyStr.Casing} (cfg : Config) (file_path : Path) (dry : bool)
      (rs : list Rule) (fp : bool) (w : world) :
  Forall (fun c => matches file_path c = false) (all_conditions rs) ->
  rule_loop cfg file_path dry rs fp w = Returned fp w.
Proof.
  unfold all_conditions. induction rs as [|r rs IH]; intros H; [reflexivity|].
  cbn [map concat] in H. apply Forall_app in H as [Hr Hrs].
  rewrite rule_loop_cons, (condition_loop_unmatched _ _ _ _ _ _ Hr).
  now apply IH.
Qed.

Lemma first_match_none {cs : PyStr.Casing} (file_path : Path) (rs : list Rule) :
  first_match file_path rs = None ->
  Forall (fun c => matches file_path c = false) (all_conditions rs).
Proof.
  unfold first_match. intros H. apply List.Forall_forall. intros c Hc.
  exact (find_none _ _ H c Hc).
Qed.

Lemma should_process_file_returns (file_path : Path) (w : world) :
  exists b w', should_process_file file_path w = Returned b w'.
Proof.
  destruct (excluded_dec w file_path) as [H|H].
  - destruct (should_process_file_excluded _ _ H) as [w' Hw]. eauto.
  - destruct (should_process_file_admitted _ _ H) as [w' Hw]. eauto.
Qed.

(** Probing an entry that is there changes nothing but the log. *)
Lemma should_process_file_present (file_path : Path) (w w' : world) (b : bool) :
  present w file_path ->
  should_process_file file_path w = Returned b w' ->
  w_fs w' = w_fs w.
Proof.
  intros [n Hn]. unfold should_process_file. run. rewrite Hn.
  destruct (_ || _ || _); [intros H; now injection H as _ <-|].
  unfold try_except, open_append. run. rewrite Hn.
  destruct n as [t [|]|t]; run; intros H; now injection H as _ <-.
Qed.

Lemma process_file_unmatched {cs : PyStr.Casing} (cfg : Config) (file_path : Path) (dry : bool) (w : world) :
  first_match file_path (default [] (rules cfg)) = None ->
  exists b w',
    should_process_file file_path w = Returned b w'
    /\ process_file cfg file_path dry w = Returned false w'.
Proof.
  intros Hnone. destruct (should_process_file_returns file_path w) as (b & w' & Hb).
  exists b, w'. split; [exact Hb|]. destruct b.
  - rewrite (process_file_admitted _ _ _ _ _ Hb).
    apply rule_loop_unmatched, first_match_none, Hnone.
  - now apply process_file_excluded.
Qed.

(** X4. A file that no condition of the rule set matches is answered
    [False] after the probe of [should_process_file] and nothing else: no
    directory is made for it, nothing is logged about a move, and when the
    file is there the file system is exactly what it was. *)
Theorem unmatched_file_is_left_alone {cs : PyStr.Casing}
        (cfg : Config) (file_path : Path) (dry : bool) (w : world) :
  first_match file_path (default [] (rules cfg)) = None ->
  exists b w',
    should_process_file file_path w = Returned b w'
    /\ process_file cfg file_path dry w = Returned false w'
    /\ (present w file_path -> w_fs w' = w_fs w).
Proof.
  intros Hnone. destruct (process_file_unmatched cfg file_path dry w Hnone)
    as (b & w' & Hb & Hp).
  exists b, w'. repeat split; [exact Hb | exact Hp |].
  intros Hpres. exact (should_process_file_present _ _ _ _ Hpres Hb).
Qed.

Lemma unmatched_file_is_left_alone_witness :
  exists w',
    process_file (Scenario.one_rule (Some "rename")) ["/"; "t"; "old.jpg"] false
                 (Scenario.world_of [ (["/"; "t"; "old.jpg"], File Scenario.long_ago false) ])
    = Returned false w'
    /\ w_fs w' = w_fs (Scenario.world_of
                         [ (["/"; "t"; "old.jpg"], File Scenario.long_ago false) ]).
Proof.
  destruct (unmatched_file_is_left_alone (cs := PyStr.ascii_casing)
              (Scenario.one_rule (Some "rename")) ["/"; "t"; "old.jpg"] false
              (Scenario.world_of [ (["/"; "t"; "old.jpg"], File Scenario.long_ago false) ])
              eq_refl) as (b & w' & _ & Hp & Hfs).
  exists w'. split; [exact Hp|]. apply Hfs. eexists; reflexivity.
Defined.

Lemma snapshot_present (cfg : Config) (w : world) (e : Path) :
  In e (snapshot cfg w) -> present w e.
Proof.
  unfold snapshot, iterdir. rewrite run_bind, run_get_fs.
  destruct (w_fs w !! parse (target_directory cfg)) as [[t l|t]|];
    rewrite ?run_ret, ?run_raise; try (intros []).
  intros Hin. apply filter_In in Hin as [Hin _].
  apply list_elem_of_In, list_elem_of_fmap in Hin as [[k v] [-> Hkv]].
  apply elem_of_map_to_list in Hkv. now exists v.
Qed.

Lemma files_loop_unmatched {cs : PyStr.Casing} (cfg : Config) (dry : bool) (entries : list Path) :
  forall p s w,
    (forall e, In e entries ->
       present w e /\ first_match e (default [] (rules cfg)) = None) ->
    exists w', files_loop cfg dry entries p s w
               = Returned (p, (s + length entries)%nat) w'
               /\ w_fs w' = w_fs w.
Proof.
  induction entries as [|e rest IH]; intros p s w H.
  - exists w. split; [|reflexivity]. simpl. now rewrite Nat.add_0_r.
  - destruct (H e (or_introl eq_refl)) as [Hpres Hnone].
    destruct (process_file_unmatched cfg e dry w Hnone) as (b & w1 & Hb & Hp).
    pose proof (should_process_file_present _ _ _ _ Hpres Hb) as Hfs.
    rewrite (files_loop_skipped _ _ _ _ _ _ _ _ Hp).
    destruct (IH p (S s) w1) as (w' & Hloop & Hfs').
    { intros e' He'. destruct (H e' (or_intror He')) as [Hp' Hn'].
      split; [|exact Hn']. unfold present. now rewrite Hfs. }
    exists w'. split; [|congruence].
    rewrite Hloop. simpl. repeat f_equal. lia.
Qed.

(** X5. When the target is a directory and no entry of it matches any
    condition (in particular when the rule set is empty or absent), the run
    returns zero processed and every entry skipped, raises nothing, and
    leaves the file system exactly as it was. *)
Theorem nothing_matches_nothing_moves {cs : PyStr.Casing}
        (cfg : Config) (dry_arg : option bool) (w : world) :
  is_directory w (parse (target_directory cfg)) ->
  (forall e, In e (snapshot cfg w) ->
     first_match e (default [] (rules cfg)) = None) ->
  exists w',
    organize_files cfg dry_arg w
    = Returned (Some (0%nat, length (snapshot cfg w))) w'
    /\ w_fs w' = w_fs w.
Proof.
  intros [t Ht] Hnone. unfold organize_files. cbv zeta.
  rewrite run_bind, run_exists.
  rewrite bool_decide_eq_true_2 by (rewrite Ht; eauto).
  change (negb true) with false. cbv iota.
  rewrite run_bind, run_log, run_bind, iterdir_logged.
  pose proof (snapshot_present cfg w) as Hpres. unfold snapshot in *.
  destruct (iterdir (parse (target_directory cfg)) w) as [entries w0|e w0] eqn:Hit.
  2:{ unfold iterdir in Hit. rewrite run_bind, run_get_fs, Ht in Hit. discriminate. }
  rewrite run_bind.
  match goal with
  | |- context [files_loop cfg ?d entries 0 0 ?w1] =>
      destruct (files_loop_unmatched cfg d entries 0 0 w1) as (w' & Hloop & Hfs)
  end.
  { intros e He. split; [exact (Hpres e He) | exact (Hnone e He)]. }
  rewrite Hloop, run_bind, run_log, run_ret. eexists. split; [reflexivity|].
  simpl. exact Hfs.
Qed.

Lemma nothing_matches_nothing_moves_witness :
  exists w',
    organize_files (Scenario.config_of [] None) None Scenario.mixed_world
    = Returned (Some (0%nat, 5%nat)) w'
    /\ w_fs w' = w_fs Scenario.mixed_world.
Proof.
  apply (nothing_matches_nothing_moves (Scenario.config_of [] None) None
           Scenario.mixed_world).
  - eexists; reflexivity.
  - intros e _. reflexivity.
Defined.

(** X6. A run returns no counts (Python's [None]) exactly when the target
    directory does not exist; it then logs one error and touches nothing,
    no entry being looked at. *)
Theorem organize_files_missing_target {cs : PyStr.Casing}
        (cfg : Config) (dry_arg : option bool) (w : world) :
  let target := parse (target_directory cfg) in
  (~ present w target ->
     organize_files cfg dry_arg w = Returned None (logged w ERROR (MsgNoTarget target)))
  /\ ((exists w', organize_files cfg dry_arg w = Returned None w') ->
      ~ present w target).
Proof.
  intros target. split.
  - intros Hno. unfold organize_files. cbv zeta.
    rewrite run_bind, run_exists, bool_decide_eq_false_2 by exact Hno.
    reflexivity.
  - intros [w' Hrun] Hpres. unfold organize_files in Hrun. cbv zeta in Hrun.
    rewrite run_bind, run_exists, bool_decide_eq_true_2 in Hrun by exact Hpres.
    change (negb true) with false in Hrun. cbv iota in Hrun.
    rewrite run_bind, run_log, run_bind in Hrun.
    destruct (iterdir _ _) as [entries w1|e w1]; [|discriminate].
    rewrite run_bind in Hrun.
    destruct (files_loop _ _ _ _ _ _) as [counts w2|e w2]; [|discriminate].
    rewrite run_bind, run_log, run_ret in Hrun. discriminate.
Qed.

Lemma organize_files_missing_target_witness :
  let cfg := {| target_directory := "/nowhere"; rules := None; date_groups := None;
                conflict_resolution := None; dry_run := None |} in
  organize_files cfg None Scenario.plain_world
  = Returned None (logged Scenario.plain_world ERROR (MsgNoTarget ["/"; "nowhere"])).
Proof.
  intros cfg.
  apply (proj1 (organize_files_missing_target cfg None Scenario.plain_world)).
  intros [n Hn]. discriminate Hn.
Defined.

End Unmatched.

(* ===================================================================== *)
(** ** Dry runs of a whole directory, and where the mode comes from       *)
(* ===================================================================== *)

Section RunModes.
Import PyPath PyTime Eff PyOS Organizer Spec Further.

Lemma files_loop_dry_grows {cs : PyStr.Casing} (cfg : Config) (entries : list Path) :
  forall p s, keeps grows (files_loop cfg true entries p s).
Proof.
  induction entries as [|e rest IH]; intros p s; cbn [files_loop]; [frame|].
  apply keeps_bind; [typeclasses eauto | apply process_file_dry_grows |].
  intros [|]; apply IH.
Qed.

Lemma iterdir_keeps (R : world -> world -> Prop) `{!Frame R} (p : Path) :
  keeps R (iterdir p).
Proof.
  intros w. unfold iterdir. run.
  destruct (w_fs w !! p) as [[t l|t]|]; apply frame_refl.
Qed.

Lemma organize_files_dry_grows {cs : PyStr.Casing} (cfg : Config) :
  keeps grows (organize_files cfg (Some true)).
Proof.
  unfold organize_files. cbv zeta.
  apply keeps_bind; [typeclasses eauto | frame | intros e].
  destruct (negb e); [frame|].
  apply keeps_bind; [typeclasses eauto | frame | intros _].
  apply keeps_bind; [typeclasses eauto | apply iterdir_keeps; typeclasses eauto |].
  intros entries.
  apply keeps_bind; [typeclasses eauto | apply files_loop_dry_grows | frame].
Qed.

(** X7. A dry run of a whole directory, asked for by the argument or, the
    argument being absent, by the configuration key, never removes, moves,
    renames or overwrites anything: every entry of the file system is still
    there and unchanged when the run ends, whether it returns or raises. *)
Theorem organize_files_dry_run_keeps_entries {cs : PyStr.Casing}
        (cfg : Config) (dry_arg : option bool) (w : world) :
  dry_arg = Some true \/ (dry_arg = None /\ dry_run cfg = Some true) ->
  forall q n,
    w_fs w !! q = Some n ->
    w_fs (outcome_world (organize_files cfg dry_arg w)) !! q = Some n.
Proof.
  intros Hdry q n Hq.
  assert (Heq : organize_files cfg dry_arg = organize_files cfg (Some true)).
  { destruct Hdry as [->|[-> Hk]]; [reflexivity|].
    unfold organize_files. now rewrite Hk. }
  rewrite Heq. exact (grows_lookup _ _ _ _ (organize_files_dry_grows cfg w) Hq).
Qed.

Lemma organize_files_dry_run_keeps_entries_witness :
  w_fs (outcome_world
          (organize_files (Scenario.two_rules (Some "overwrite")) (Some true)
                          Scenario.taken_world))
  !! Scenario.notes = Some (File Scenario.three_days_ago false).
Proof.
  apply (organize_files_dry_run_keeps_entries
           (Scenario.two_rules (Some "overwrite")) (Some true) Scenario.taken_world
           (or_introl eq_refl)).
  reflexivity.
Defined.

Lemma condition_loop_dry_key {cs : PyStr.Casing} (cfg : Config) (flag : option bool) (file_path : Path)
      (dry : bool) (conds : list Condition) (fp : bool) :
  condition_loop (with_dry_run cfg flag) file_path dry conds fp
  = condition_loop cfg file_path dry conds fp.
Proof.
  induction conds as [|c rest IH]; [reflexivity|].
  cbn [condition_loop]. rewrite IH. reflexivity.
Qed.

Lemma rule_loop_dry_key {cs : PyStr.Casing} (cfg : Config) (flag : option bool) (file_path : Path)
      (dry : bool) (rs : list Rule) :
  forall fp w, rule_loop (with_dry_run cfg flag) file_path dry rs fp w
               = rule_loop cfg file_path dry rs fp w.
Proof.
  induction rs as [|r rest IH]; intros fp w; [reflexivity|].
  rewrite !rule_loop_cons, condition_loop_dry_key.
  destruct (condition_loop cfg file_path dry _ fp w) as [fp' w'|e w'];
    [apply IH | reflexivity].
Qed.

Lemma process_file_dry_key {cs : PyStr.Casing} (cfg : Config) (flag : option bool) (file_path : Path)
      (dry : bool) (w : world) :
  process_file (with_dry_run cfg flag) file_path dry w = process_file cfg file_path dry w.
Proof.
  unfold process_file. rewrite !run_bind.
  destruct (should_process_file file_path w) as [[|] w'|e w']; try reflexivity.
  apply rule_loop_dry_key.
Qed.

Lemma files_loop_dry_key {cs : PyStr.Casing} (cfg : Config) (flag : option bool) (dry : bool)
      (entries : list Path) :
  forall p s w, files_loop (with_dry_run cfg flag) dry entries p s w
                = files_loop cfg dry entries p s w.
Proof.
  induction entries as [|e rest IH]; intros p s w; [reflexivity|].
  cbn [files_loop]. rewrite !run_bind, process_file_dry_key.
  destruct (process_file cfg e dry w) as [[|] w'|ex w']; try reflexivity; apply IH.
Qed.

(** X8. The mode of a run is the [dry_run] argument when one is given,
    and then the configuration's [dry_run] key is not read at all: whatever
    the key says, the run is the same.  Only a run without argument reads
    the key, an absent key meaning a live run. *)
Theorem dry_run_key_is_read_only_without_argument {cs : PyStr.Casing}
        (cfg : Config) (flag : option bool) (b : bool) (w : world) :
  organize_files (with_dry_run cfg flag) (Some b) w = organize_files cfg (Some b) w
  /\ organize_files (with_dry_run cfg flag) None w
     = organize_files cfg (Some (default false flag)) w.
Proof.
  assert (H : forall d, organize_files (with_dry_run cfg flag) (Some d) w
                        = organize_files cfg (Some d) w).
  { intros d. unfold organize_files. cbv zeta.
    change (target_directory (with_dry_run cfg flag)) with (target_directory cfg).
    rewrite !run_bind.
    destruct (exists_ _ w) as [[|] w0|e w0]; try reflexivity.
    change (negb true) with false. cbv iota. rewrite !run_bind.
    destruct (log _ _ w0) as [[] w1|e w1]; [|reflexivity].
    rewrite !run_bind.
    destruct (iterdir _ w1) as [entries w2|e w2]; [|reflexivity].
    rewrite !run_bind, files_loop_dry_key. reflexivity. }
  split; [apply H|]. rewrite <- H. reflexivity.
Qed.

End RunModes.

(* ===================================================================== *)
(** ** More on date groups and on the conflict resolver                   *)
(* ===================================================================== *)

Section GroupsAndConflicts.
Import PyPath PyTime Eff PyOS Organizer Spec Further.

(** The three ways [get_date_group] ends, by what the read of the
    modification time gives. *)
Lemma get_date_group_cases (cfg : Config) (file_path : Path) (w : world) :
  (exists n, w_fs w !! file_path = Some n /\ year_ok (node_mtime n) = true
             /\ get_date_group cfg file_path w
                = Returned (group_of_age cfg (age_days w n)) w)
  \/ (exists n, w_fs w !! file_path = Some n /\ year_ok (node_mtime n) = false
                /\ tm_ok (node_mtime n) = true
                /\ get_date_group cfg file_path w = Raised ValueError w)
  \/ ((w_fs w !! file_path = None
       \/ exists n, w_fs w !! file_path = Some n /\ tm_ok (node_mtime n) = false)
      /\ get_date_group cfg file_path w
         = Returned "Unknown" (logged w WARNING (MsgNoStats file_path))).
Proof.
  destruct (w_fs w !! file_path) as [n|] eqn:Hn.
  - destruct (year_ok (node_mtime n)) eqn:Ey.
    + left. exists n. repeat split; try assumption.
      now apply get_date_group_readable.
    + destruct (tm_ok (node_mtime n)) eqn:Et.
      * right. left. exists n. repeat split; try assumption.
        now apply (get_date_group_beyond cfg file_path w n).
      * right. right. split; [right; eauto|].
        now apply (get_date_group_overflow cfg file_path w n).
  - right. right. split; [now left|]. now apply get_date_group_unreadable.
Qed.




Lemma group_rank_of_age (cfg : Config) (age : Z) :
  group_rank (group_of_age cfg age)
  = if age <=? last_week_days cfg then 0%nat
    else if age <=? last_month_days cfg then 1%nat else 2%nat.
Proof.
  unfold group_of_age.
  destruct (age <=? last_week_days cfg); [reflexivity|].
  destruct (age <=? last_month_days cfg); reflexivity.
Qed.

(** X10. Date groups follow age: of two files whose modification time
    can be read (they are there, with time stamps [datetime] can hold),
    the older one never lands in a younger group, whatever the
    thresholds.  And when the month threshold is not above the week
    threshold, no file is ever put in ["Last_Month"]. *)
Theorem date_groups_follow_age (cfg : Config) (w : world) :
  (forall p1 p2 n1 n2 g1 g2 w1 w2,
     w_fs w !! p1 = Some n1 -> w_fs w !! p2 = Some n2 ->
     year_ok (node_mtime n1) = true -> year_ok (node_mtime n2) = true ->
     age_days w n1 <= age_days w n2 ->
     get_date_group cfg p1 w = Returned g1 w1 ->
     get_date_group cfg p2 w = Returned g2 w2 ->
     (group_rank g1 <= group_rank g2)%nat)
  /\ (last_month_days cfg <= last_week_days cfg ->
      forall p g w', get_date_group cfg p w = Returned g w' -> g <> "Last_Month").
Proof.
  split.
  - intros p1 p2 n1 n2 g1 g2 w1 w2 H1 H2 Hy1 Hy2 Hage.
    rewrite (get_date_group_readable _ _ _ _ H1 Hy1),
            (get_date_group_readable _ _ _ _ H2 Hy2).
    intros E1 E2. injection E1 as <- _. injection E2 as <- _.
    fold (group_of_age cfg (age_days w n1)) (group_of_age cfg (age_days w n2)).
    rewrite !group_rank_of_age.
    repeat match goal with
           | |- context [?a <=? ?b] => destruct (Z.leb_spec a b)
           end; lia.
  - intros Hmis p g w' Hr.
    destruct (get_date_group_cases cfg p w)
      as [(n & Hn & Hy & Hg) | [(n & Hn & Hy & Ht & Hg) | [_ Hg]]];
      rewrite Hg in Hr; try discriminate; injection Hr as <- _; [|discriminate].
    unfold group_of_age.
    repeat match goal with
           | |- context [?a <=? ?b] => destruct (Z.leb_spec a b)
           end; try discriminate; lia.
Qed.

Lemma date_groups_follow_age_witness :
  (group_rank "Last_Week" <= group_rank "Older")%nat
  /\ forall g w',
       get_date_group
         {| target_directory := "/t"; rules := None;
            date_groups := Some {| last_week := Some 30; last_month := Some 7 |};
            conflict_resolution := None; dry_run := None |}
         ["/"; "t"; "month.txt"] Scenario.aged_world = Returned g w' ->
       g <> "Last_Month".
Proof.
  split.
  - apply (proj1 (date_groups_follow_age Scenario.thresholds_7_30 Scenario.aged_world)
             ["/"; "t"; "recent.txt"] ["/"; "t"; "old.txt"]
             (File Scenario.three_days_ago false) (File Scenario.long_ago false)
             "Last_Week" "Older" Scenario.aged_world Scenario.aged_world);
      try reflexivity.
    vm_compute. discriminate.
  - apply (proj2 (date_groups_follow_age _ Scenario.aged_world)).
    vm_compute. discriminate.
Defined.

(** The stamp is fifteen characters long once the year has four digits,
    and never empty. *)
Lemma stamp_length (d : datetime) :
  1000 <= year d -> String.length (stamp d) = 15%nat.
Proof.
  intros Hy. unfold stamp. rewrite (fmt_Y_four d Hy).
  unfold fmt_m, fmt_d, fmt_H, fmt_M, fmt_S.
  rewrite !append_length, !zpad_length. reflexivity.
Qed.

Lemma renamed_length_stamp (w : world) (destination : Path) :
  String.length (renamed w destination)
  = (String.length (name destination) + 1 + String.length (stamp (w_now w)))%nat.
Proof.
  pose proof (f_equal String.length (stem_suffix (name destination))) as H.
  rewrite append_length in H.
  unfold renamed, stem, suffix.
  rewrite !append_length. simpl. lia.
Qed.

Lemma renamed_length (w : world) (destination : Path) :
  1000 <= year (w_now w) ->
  String.length (renamed w destination)
  = (String.length (name destination) + 16)%nat.
Proof.
  intros Hy. rewrite renamed_length_stamp, (stamp_length _ Hy). lia.
Qed.

Lemma renamed_longer (w : world) (destination : Path) :
  (String.length (name destination) < String.length (renamed w destination))%nat.
Proof. rewrite renamed_length_stamp. lia. Qed.

(** X11. The conflict resolver always answers: it raises nothing and
    leaves the file system alone.  A path it returns lies in the directory
    of the requested destination, and is either that destination or, when
    the destination is taken, a path whose name is longer, hence another
    one: sixteen characters longer once the clock shows a year of four
    digits. *)
Theorem resolve_conflict_stays_in_directory
        (cfg : Config) (source destination : Path) (w : world) :
  exists r w',
    resolve_conflict cfg source destination w = Returned r w'
    /\ same_fs w w'
    /\ forall p, r = Some p ->
         parent p = parent destination
         /\ (p = destination
             \/ (present w destination
                 /\ (String.length (name destination) < String.length (name p))%nat
                 /\ (1000 <= year (w_now w) ->
                     String.length (name p) = (String.length (name destination) + 16)%nat)
                 /\ p <> destination)).
Proof.
  destruct (w_fs w !! destination) as [n|] eqn:Hn.
  - assert (Hp : present w destination) by (exists n; exact Hn).
    rewrite (resolve_conflict_taken _ _ _ _ Hp). cbv zeta.
    destruct (String.eqb _ "skip");
      [eexists _, _; split; [reflexivity|]; split; [split; reflexivity|]; discriminate|].
    destruct (String.eqb _ "overwrite").
    { eexists _, _. split; [reflexivity|]. split; [split; reflexivity|].
      intros p E. injection E as <-. auto. }
    destruct (String.eqb _ "rename").
    2:{ eexists _, _. split; [reflexivity|]. split; [split; reflexivity|]. discriminate. }
    eexists _, _. split; [reflexivity|]. split; [split; reflexivity|].
    intros p E. injection E as <-. rewrite parent_snoc. split; [reflexivity|].
    right. split; [exact Hp|]. rewrite name_snoc.
    pose proof (renamed_longer w destination) as Hlen.
    split; [exact Hlen|]. split; [apply renamed_length|]. intros Heq.
    apply (f_equal name) in Heq. rewrite name_snoc in Heq. rewrite Heq in Hlen. lia.
  - rewrite (resolve_conflict_free _ _ _ _ Hn).
    eexists _, _. split; [reflexivity|]. split; [split; reflexivity|].
    intros p E. injection E as <-. auto.
Qed.

End GroupsAndConflicts.

(* ===================================================================== *)
(** ** Live moves                                                         *)
(* ===================================================================== *)

Section LiveMoves.
Import PyPath PyTime Eff PyOS Organizer Spec Further.

Lemma mkdir_chain_directories (ps : list Path) :
  forall w w', mkdir_chain ps w = Returned tt w' ->
               forall p, In p ps -> is_directory w' p.
Proof.
  induction ps as [|p0 ps IH]; intros w w' Hrun p Hin; [destruct Hin|].
  cbn [mkdir_chain] in Hrun. rewrite run_bind, run_get_fs in Hrun.
  destruct (w_fs w !! p0) as [[t l|t]|] eqn:E.
  - discriminate.
  - destruct Hin as [<-|Hin]; [|exact (IH _ _ Hrun _ Hin)].
    pose proof (mkdir_chain_grows ps w) as Hg. rewrite Hrun in Hg.
    exists t. exact (grows_lookup _ _ _ _ Hg E).
  - rewrite run_bind, run_now, run_bind, run_put_fs in Hrun.
    destruct Hin as [<-|Hin]; [|exact (IH _ _ Hrun _ Hin)].
    pose proof (mkdir_chain_grows ps (with_fs w (<[p0:=Dir (w_now w)]> (w_fs w)))) as Hg.
    rewrite Hrun in Hg. exists (w_now w).
    apply (grows_lookup _ _ _ _ Hg). simpl. apply lookup_insert_eq.
Qed.

Lemma prefixes_from_last (acc p : Path) :
  p <> [] -> In (acc ++ p) (prefixes_from acc p).
Proof.
  revert acc. induction p as [|x p IH]; intros acc Hne; [congruence|].
  cbn [prefixes_from]. destruct p as [|y p].
  - now left.
  - right. replace (acc ++ x :: y :: p) with ((acc ++ [x]) ++ y :: p)
      by (now rewrite <- app_assoc).
    apply IH. discriminate.
Qed.

(** Once [mkdir] has returned, the directory is there. *)
Lemma mkdir_parents_directory (D : Path) (w w' : world) :
  mkdir_parents D w = Returned tt w' -> D <> [] -> is_directory w' D.
Proof.
  intros Hrun Hne. apply (mkdir_chain_directories _ _ _ Hrun).
  apply (prefixes_from_last [] D Hne).
Qed.

(** Moving a regular file onto a path that is not a directory, in a
    directory that is there. *)
Lemma shutil_move_file (src dst : Path) (w : world) (t : datetime) (l : bool) :
  w_fs w !! src = Some (File t l) ->
  from_option node_is_dir false (w_fs w !! dst) = false ->
  is_directory w (parent dst) ->
  shutil_move src dst w
  = Returned tt (with_fs w (<[dst := File t l]> (delete src (w_fs w)))).
Proof.
  intros Hsrc Hdst [tp Hpar]. unfold shutil_move, real_destination.
  run. rewrite Hdst. run. rewrite Hsrc, Hpar. now run.
Qed.

Lemma joinpath_plain (D : Path) (n : string) :
  plain_name n -> joinpath D n = D ++ [n].
Proof. intros [Hs Hp]. unfold joinpath. unfold PyStr.startswith in *. now rewrite Hs, Hp. Qed.

(** The live path of [apply_condition], from what its three steps gave. *)
Lemma apply_condition_live {cs : PyStr.Casing} (cfg : Config) (src : Path) (c : Condition)
      (w w1 w2 w3 : world) (D d : Path) (t : datetime) (l : bool) :
  destination_dir_of cfg src c w = Returned D w1 ->
  mkdir_parents D w1 = Returned tt w2 ->
  resolve_conflict cfg src (joinpath D (name src)) w2 = Returned (Some d) w3 ->
  w_fs w !! src = Some (File t l) ->
  from_option node_is_dir false (w_fs w2 !! d) = false ->
  is_directory w2 (parent d) ->
  apply_condition cfg src false c w
  = Returned Break
      (logged (with_fs w3 (<[d := File t l]> (delete src (w_fs w2))))
              INFO (MsgMoved src d)).
Proof.
  intros HD Hmk Hres Hsrc Hnd Hpar.
  pose proof (resolve_conflict_same_fs cfg src (joinpath D (name src)) w2) as [Hfs _].
  rewrite Hres in Hfs. simpl in Hfs.
  assert (Hsrc3 : w_fs w3 !! src = Some (File t l)).
  { rewrite Hfs. eapply present_after; eauto. }
  unfold apply_condition.
  rewrite run_bind, HD, run_bind, Hmk, run_bind, Hres.
  unfold try_except. rewrite run_bind.
  rewrite (shutil_move_file src d w3 t l Hsrc3);
    [|now rewrite Hfs | destruct Hpar as [tp Hp]; exists tp; now rewrite Hfs].
  rewrite Hfs. reflexivity.
Qed.

(** X12. In a live run, when the destination directory could be made and
    the destination path is free, the condition moves the file: the file
    arrives with its metadata, it is gone from where it was, nothing else
    changes, the move is logged and the loop of the rule ends on [True]. *)
Theorem free_destination_receives_file {cs : PyStr.Casing}
        (cfg : Config) (src : Path) (c : Condition) (rest : list Condition)
        (w w1 w2 : world) (D : Path) (t : datetime) (l : bool) :
  matches src c = true ->
  destination_dir_of cfg src c w = Returned D w1 ->
  mkdir_parents D w1 = Returned tt w2 ->
  D <> [] ->
  plain_name (name src) ->
  w_fs w !! src = Some (File t l) ->
  w_fs w2 !! (D ++ [name src]) = None ->
  let dst := D ++ [name src] in
  let w' := logged (with_fs w2 (<[dst := File t l]> (delete src (w_fs w2))))
                   INFO (MsgMoved src dst) in
  apply_condition cfg src false c w = Returned Break w'
  /\ (forall fp, condition_loop cfg src false (c :: rest) fp w = Returned true w')
  /\ w_fs w' !! dst = Some (File t l)
  /\ w_fs w' !! src = None
  /\ (forall q, q <> src -> q <> dst -> w_fs w' !! q = w_fs w2 !! q).
Proof.
  intros Hm HD Hmk HDne Hplain Hsrc Hfree dst w'.
  assert (Hsrc2 : w_fs w2 !! src = Some (File t l)) by (eapply present_after; eauto).
  assert (Hne : src <> dst)
    by (unfold dst; intros Heq; rewrite <- Heq in Hfree;
        unfold Path in *; congruence).
  assert (Ha : apply_condition cfg src false c w = Returned Break w').
  { apply (apply_condition_live cfg src c w w1 w2 w2 D dst t l); auto.
    - rewrite (joinpath_plain _ _ Hplain). now apply resolve_conflict_free.
    - unfold dst, Path in *. now rewrite Hfree.
    - unfold dst. rewrite parent_snoc. now apply (mkdir_parents_directory D w1). }
  split; [exact Ha|]. split; [intros fp; now apply condition_loop_break|].
  simpl. split; [apply lookup_insert_eq|]. split.
  - rewrite lookup_insert_ne by congruence. apply lookup_delete_eq.
  - intros q Hq1 Hq2. rewrite lookup_insert_ne by congruence.
    now rewrite lookup_delete_ne by congruence.
Qed.

Lemma free_destination_receives_file_witness :
  exists w',
    apply_condition (Scenario.one_rule None) Scenario.notes false Scenario.to_docs
                    Scenario.plain_world = Returned Break w'
    /\ w_fs w' !! ["/"; "t"; "Docs"; "notes.txt"] = Some (File Scenario.three_days_ago false)
    /\ w_fs w' !! Scenario.notes = None.
Proof.
  pose proof (free_destination_receives_file
                (Scenario.one_rule None) Scenario.notes Scenario.to_docs []
                Scenario.plain_world Scenario.plain_world
                (with_fs Scenario.plain_world
                   (<[ ["/"; "t"; "Docs"] := Dir Scenario.clock ]>
                      (w_fs Scenario.plain_world)))
                ["/"; "t"; "Docs"] Scenario.three_days_ago false
                eq_refl eq_refl eq_refl ltac:(discriminate) (conj eq_refl eq_refl)
                eq_refl eq_refl) as (Ha & _ & Hdst & Hsrc & _).
  eexists. split; [exact Ha|]. split; [exact Hdst | exact Hsrc].
Defined.

Lemma stamped_differs (w : world) (D : Path) (n : string) :
  D ++ [renamed w (D ++ [n])] <> D ++ [n].
Proof.
  intros Heq. apply app_inj_tail in Heq as [_ Heq].
  pose proof (renamed_longer w (D ++ [n])) as Hlen.
  rewrite Heq, name_snoc in Hlen. lia.
Qed.

Lemma stamped_not_source (w : world) (D src : Path) :
  D ++ [renamed w (D ++ [name src])] <> src.
Proof.
  intros Heq. apply (f_equal name) in Heq.
  pose proof (renamed_longer w (D ++ [name src])) as Hlen.
  rewrite !name_snoc in *. rewrite Heq in Hlen. lia.
Qed.

(** The live path under [rename] when the destination is taken: the world
    the condition leaves. *)
Lemma apply_condition_rename {cs : PyStr.Casing}
      (cfg : Config) (src : Path) (c : Condition)
      (w w1 w2 : world) (D : Path) (t : datetime) (l : bool) :
  conflict_resolution cfg = None \/ conflict_resolution cfg = Some "rename" ->
  destination_dir_of cfg src c w = Returned D w1 ->
  mkdir_parents D w1 = Returned tt w2 ->
  D <> [] ->
  plain_name (name src) ->
  w_fs w !! src = Some (File t l) ->
  present w2 (D ++ [name src]) ->
  let new_name := renamed w2 (D ++ [name src]) in
  from_option node_is_dir false (w_fs w2 !! (D ++ [new_name])) = false ->
  apply_condition cfg src false c w
  = Returned Break
      (logged (with_fs (logged w2 INFO (MsgRenaming (name src) new_name))
                       (<[D ++ [new_name] := File t l]> (delete src (w_fs w2))))
              INFO (MsgMoved src (D ++ [new_name]))).
Proof.
  intros Hpol HD Hmk HDne Hplain Hsrc Hex new_name Hnd.
  apply (apply_condition_live cfg src c w w1 w2
           (logged w2 INFO (MsgRenaming (name src) new_name)) D (D ++ [new_name]) t l);
    auto.
  - rewrite (joinpath_plain _ _ Hplain), (resolve_conflict_taken _ _ _ _ Hex).
    cbv zeta. unfold new_name. rewrite parent_snoc.
    destruct Hpol as [-> | ->]; reflexivity.
  - rewrite parent_snoc. now apply (mkdir_parents_directory D w1).
Qed.

(** X13. Under the policy [rename] (also when the key is absent), a
    destination that is taken is left alone: the file goes to the sibling
    named stem, underscore, time stamp, suffix, and is gone from where it
    was.  The stamped name is not looked up first: unless a directory has
    that name, the sibling holds the moved file afterwards whatever was
    there. *)
Theorem rename_moves_to_stamped_sibling {cs : PyStr.Casing}
        (cfg : Config) (src : Path) (c : Condition)
        (w w1 w2 : world) (D : Path) (t : datetime) (l : bool) :
  conflict_resolution cfg = None \/ conflict_resolution cfg = Some "rename" ->
  destination_dir_of cfg src c w = Returned D w1 ->
  mkdir_parents D w1 = Returned tt w2 ->
  D <> [] ->
  plain_name (name src) ->
  w_fs w !! src = Some (File t l) ->
  present w2 (D ++ [name src]) ->
  let dst := D ++ [name src] in
  let sibling := D ++ [renamed w2 dst] in
  from_option node_is_dir false (w_fs w2 !! sibling) = false ->
  exists w',
    apply_condition cfg src false c w = Returned Break w'
    /\ w_fs w' !! sibling = Some (File t l)
    /\ w_fs w' !! src = None
    /\ (dst <> src -> w_fs w' !! dst = w_fs w2 !! dst)
    /\ sibling <> dst.
Proof.
  intros Hpol HD Hmk HDne Hplain Hsrc Hex dst sibling Hnd.
  pose proof (stamped_differs w2 D (name src)) as Hsd.
  pose proof (stamped_not_source w2 D src) as Hss.
  eexists. split.
  { exact (apply_condition_rename cfg src c w w1 w2 D t l
             Hpol HD Hmk HDne Hplain Hsrc Hex Hnd). }
  simpl. split; [apply lookup_insert_eq|]. split.
  - rewrite lookup_insert_ne by exact Hss. apply lookup_delete_eq.
  - split; [|exact Hsd]. intros Hds.
    rewrite lookup_insert_ne by exact Hsd. now rewrite lookup_delete_ne by congruence.
Qed.

Lemma rename_moves_to_stamped_sibling_witness :
  exists w',
    apply_condition (Scenario.one_rule None) Scenario.notes false Scenario.to_docs
                    Scenario.taken_world = Returned Break w'
    /\ w_fs w' !! ["/"; "t"; "Docs"; "notes_20240315_120000.txt"]
       = Some (File Scenario.three_days_ago false)
    /\ w_fs w' !! ["/"; "t"; "Docs"; "notes.txt"] = Some (File Scenario.ten_days_ago false).
Proof.
  destruct (rename_moves_to_stamped_sibling
              (Scenario.one_rule None) Scenario.notes Scenario.to_docs
              Scenario.taken_world Scenario.taken_world Scenario.taken_world
              ["/"; "t"; "Docs"] Scenario.three_days_ago false
              (or_introl eq_refl) eq_refl eq_refl ltac:(discriminate)
              (conj eq_refl eq_refl) eq_refl
              (ex_intro _ (File Scenario.ten_days_ago false) eq_refl) eq_refl)
    as (w' & Ha & Hsib & _ & Hdst & _).
  exists w'. split; [exact Ha|]. split; [exact Hsib|].
  etransitivity; [apply Hdst; discriminate | reflexivity].
Defined.

(** X14. Under the policy [overwrite], a destination that is taken by a
    regular file is replaced: after the move the destination holds the
    moved file with its metadata, a warning and the move are logged, and
    the file is gone from where it was unless the destination is the file
    itself. *)
Theorem overwrite_replaces_destination {cs : PyStr.Casing}
        (cfg : Config) (src : Path) (c : Condition)
        (w w1 w2 : world) (D : Path) (t t' : datetime) (l l' : bool) :
  conflict_resolution cfg = Some "overwrite" ->
  destination_dir_of cfg src c w = Returned D w1 ->
  mkdir_parents D w1 = Returned tt w2 ->
  D <> [] ->
  plain_name (name src) ->
  w_fs w !! src = Some (File t l) ->
  w_fs w2 !! (D ++ [name src]) = Some (File t' l') ->
  let dst := D ++ [name src] in
  exists w',
    apply_condition cfg src false c w = Returned Break w'
    /\ w_fs w' !! dst = Some (File t l)
    /\ (dst <> src -> w_fs w' !! src = None)
    /\ w_log w' = w_log w2 ++ [(WARNING, MsgOverwriting dst); (INFO, MsgMoved src dst)].
Proof.
  intros Hpol HD Hmk HDne Hplain Hsrc Hdst dst.
  assert (Hex : present w2 dst) by (eexists; exact Hdst).
  assert (Hres : resolve_conflict cfg src (joinpath D (name src)) w2
                 = Returned (Some dst) (logged w2 WARNING (MsgOverwriting dst))).
  { rewrite (joinpath_plain _ _ Hplain), (resolve_conflict_taken _ _ _ _ Hex), Hpol.
    reflexivity. }
  eexists. split.
  { apply (apply_condition_live cfg src c w w1 w2
             (logged w2 WARNING (MsgOverwriting dst)) D dst t l); auto.
    - unfold dst, Path in *. now rewrite Hdst.
    - unfold dst. rewrite parent_snoc. now apply (mkdir_parents_directory D w1). }
  simpl. split; [apply lookup_insert_eq|]. split.
  - intros Hne. rewrite lookup_insert_ne by exact Hne. apply lookup_delete_eq.
  - now rewrite <- app_assoc.
Qed.

Lemma overwrite_replaces_destination_witness :
  exists w',
    apply_condition (Scenario.one_rule (Some "overwrite")) Scenario.notes false
                    Scenario.to_docs Scenario.taken_world = Returned Break w'
    /\ w_fs w' !! ["/"; "t"; "Docs"; "notes.txt"] = Some (File Scenario.three_days_ago false)
    /\ w_fs w' !! Scenario.notes = None.
Proof.
  destruct (overwrite_replaces_destination
              (Scenario.one_rule (Some "overwrite")) Scenario.notes Scenario.to_docs
              Scenario.taken_world Scenario.taken_world Scenario.taken_world
              ["/"; "t"; "Docs"] Scenario.three_days_ago Scenario.ten_days_ago false false
              eq_refl eq_refl eq_refl ltac:(discriminate)
              (conj eq_refl eq_refl) eq_refl eq_refl)
    as (w' & Ha & Hdst & Hsrc & _).
  exists w'. split; [exact Ha|]. split; [exact Hdst|]. apply Hsrc. discriminate.
Defined.




End LiveMoves.

(* ===================================================================== *)
(** ** [utils.py]: validation and the sample configuration                *)
(* ===================================================================== *)

Section Validation.
Import PyPath PyTime Eff PyOS Organizer Spec Template Further Utils.

Lemma check_conditions_cases (conds : list Condition) (k : verdict) :
  (Forall (fun c => is_Some (destination c)) conds /\ check_conditions conds k = k)
  \/ (~ Forall (fun c => is_Some (destination c)) conds
      /\ check_conditions conds k = (["Condition missing 'destination' key"], false)).
Proof.
  induction conds as [|c rest IH]; [left; split; [constructor | reflexivity]|].
  cbn [check_conditions]. destruct (destination c) as [d|] eqn:Ed.
  - destruct IH as [[Hok Heq]|[Hbad Heq]].
    + left. split; [constructor; [rewrite Ed; eauto | exact Hok] | exact Heq].
    + right. split; [|exact Heq]. intros H. apply Hbad. now inversion H.
  - right. split; [|reflexivity]. intros H. inversion H as [|? ? Hc _]; subst.
    rewrite Ed in Hc. destruct Hc as [? Hc]. discriminate.
Qed.

Lemma check_rules_cases (rs : list Rule) :
  (Forall rule_well_formed rs /\ check_rules rs ([], true) = ([], true))
  \/ (~ Forall rule_well_formed rs
      /\ exists m, check_rules rs ([], true) = ([m], false)
           /\ In m ["Rule missing 'conditions' key"; "Condition missing 'destination' key"]).
Proof.
  induction rs as [|r rest IH]; [left; split; [constructor | reflexivity]|].
  cbn [check_rules]. destruct (conditions r) as [conds|] eqn:Ec.
  - destruct (check_conditions_cases conds (check_rules rest ([], true)))
      as [[Hok Heq]|[Hbad Heq]]; rewrite Heq.
    + destruct IH as [[Hrs Hres]|[Hrs (m & Hres & Hm)]].
      * left. split; [|exact Hres]. constructor; [|exact Hrs]. now exists conds.
      * right. split; [intros H; apply Hrs; now inversion H|]. eauto.
    + right. split.
      * intros H. inversion H as [|? ? [conds' [Hc Hf]] _]; subst.
        rewrite Ec in Hc. injection Hc as <-. contradiction.
      * eexists. split; [reflexivity|]. simpl. tauto.
  - right. split.
    + intros H. inversion H as [|? ? [conds' [Hc _]] _]; subst.
      rewrite Ec in Hc. discriminate.
    + eexists. split; [reflexivity|]. simpl. tauto.
Qed.

(** Conditions that have their key, and rules that are well formed, are
    passed over. *)
Lemma check_conditions_pass (conds rest : list Condition) (k : verdict) :
  Forall (fun c => is_Some (destination c)) conds ->
  check_conditions (conds ++ rest) k = check_conditions rest k.
Proof.
  induction 1 as [|c conds [d Hd] _ IH]; [reflexivity|].
  cbn [app check_conditions]. now rewrite Hd.
Qed.

Lemma check_rules_pass (rs rest : list Rule) (k : verdict) :
  Forall rule_well_formed rs ->
  check_rules (rs ++ rest) k = check_rules rest k.
Proof.
  induction 1 as [|r rs (conds & Hc & Hok) _ IH]; [reflexivity|].
  cbn [app check_rules]. rewrite Hc, IH.
  rewrite <- (app_nil_r conds). now apply check_conditions_pass.
Qed.

Lemma validate_config_rules (config : Document) (rs : list Rule) :
  is_Some (doc_target_directory config) ->
  doc_rules config = Some rs ->
  validate_config config = check_rules rs ([], true).
Proof.
  intros Ht Hr. unfold validate_config, required_keys.
  cbn [check_required has_key String.eqb Ascii.eqb Bool.eqb].
  rewrite bool_decide_eq_true_2 by exact Ht. cbn [negb].
  rewrite bool_decide_eq_true_2 by (rewrite Hr; eauto). cbn [negb].
  now rewrite Hr.
Qed.

(** X16. [validate_config] accepts a document exactly when it has the keys
    [target_directory] and [rules], every rule has a [conditions] key and
    every condition a [destination] key; it then prints nothing.
    Otherwise it returns [False] after printing one line, which names the
    first thing found missing, in the order of the checks: the key
    [target_directory]; then the key [rules]; then, rule after rule, the
    [conditions] key of the rule and, condition after condition, the
    [destination] key.  Nothing after the first thing missing is
    checked. *)
Theorem validate_config_iff (config : Document) :
  (validate_config config = ([], true) <-> document_well_formed config)
  /\ (doc_target_directory config = None ->
      validate_config config
      = (["Missing required config key: target_directory"], false))
  /\ (is_Some (doc_target_directory config) -> doc_rules config = None ->
      validate_config config = (["Missing required config key: rules"], false))
  /\ (forall pre r post,
        is_Some (doc_target_directory config) ->
        doc_rules config = Some (pre ++ r :: post) ->
        Forall rule_well_formed pre ->
        (conditions r = None ->
         validate_config config = (["Rule missing 'conditions' key"], false))
        /\ (forall cpre c cpost,
              conditions r = Some (cpre ++ c :: cpost) ->
              Forall (fun c' => is_Some (destination c')) cpre ->
              destination c = None ->
              validate_config config
              = (["Condition missing 'destination' key"], false)))
  /\ (validate_config config = ([], true)
      \/ exists m, validate_config config = ([m], false)).
Proof.
  assert (Hno_target : doc_target_directory config = None ->
            validate_config config
            = (["Missing required config key: target_directory"], false)).
  { intros Ht. unfold validate_config, required_keys.
    cbn [check_required has_key String.eqb Ascii.eqb Bool.eqb].
    rewrite bool_decide_eq_false_2 by (rewrite Ht; intros [? ?]; discriminate).
    reflexivity. }
  assert (Hno_rules : is_Some (doc_target_directory config) -> doc_rules config = None ->
            validate_config config = (["Missing required config key: rules"], false)).
  { intros Ht Hr. unfold validate_config, required_keys.
    cbn [check_required has_key String.eqb Ascii.eqb Bool.eqb].
    rewrite bool_decide_eq_true_2 by exact Ht. cbn [negb].
    rewrite bool_decide_eq_false_2 by (rewrite Hr; intros [? ?]; discriminate).
    reflexivity. }
  split; [|split; [exact Hno_target|split; [exact Hno_rules|split]]].
  - unfold document_well_formed.
    destruct (doc_target_directory config) as [t|] eqn:Et.
    2:{ rewrite (Hno_target eq_refl).
        split; [discriminate | intros [[? H] _]; discriminate]. }
    destruct (doc_rules config) as [rs|] eqn:Er.
    2:{ rewrite (Hno_rules ltac:(eauto) eq_refl).
        split; [discriminate | intros [_ [rs [H _]]]; discriminate]. }
    rewrite (validate_config_rules config rs) by (rewrite ?Et; eauto).
    destruct (check_rules_cases rs) as [[Hok Heq]|[Hbad (m & Heq & Hm)]]; rewrite Heq.
    + split; [intros _; split; eauto | reflexivity].
    + split; [discriminate|]. intros [_ [rs' [Hrs Hf]]]. injection Hrs as <-.
      contradiction.
  - intros pre r post Ht Hr Hpre.
    rewrite (validate_config_rules config _ Ht Hr), (check_rules_pass _ _ _ Hpre).
    cbn [check_rules]. split.
    + intros Hc. now rewrite Hc.
    + intros cpre c cpost Hc Hcpre Hd.
      rewrite Hc, (check_conditions_pass _ _ _ Hcpre).
      cbn [check_conditions]. now rewrite Hd.
  - destruct (doc_target_directory config) as [t|] eqn:Et;
      [|right; eexists; now apply Hno_target].
    destruct (doc_rules config) as [rs|] eqn:Er;
      [|right; eexists; apply Hno_rules; eauto].
    rewrite (validate_config_rules config rs) by (rewrite ?Et; eauto).
    destruct (check_rules_cases rs) as [[Hok Heq]|[Hbad (m & Heq & Hm)]]; rewrite Heq;
      [now left | right; eauto].
Qed.

Lemma validate_config_iff_witness :
  validate_config sample_config = ([], true)
  /\ validate_config faulty_document = (["Condition missing 'destination' key"], false).
Proof.
  split.
  - apply (proj1 (validate_config_iff sample_config)).
    split; [eexists; reflexivity|].
    eexists. split; [reflexivity|].
    repeat constructor. eexists. split; [reflexivity|].
    repeat constructor. eexists; reflexivity.
  - refine (proj2 (proj1 (proj2 (proj2 (proj2 (validate_config_iff faulty_document))))
                     [ {| rule_name := "fine"; conditions := Some [Scenario.to_docs] |} ]
                     {| rule_name := "faulty";
                        conditions := Some [Scenario.to_other; no_destination] |}
                     [ {| rule_name := "never looked at"; conditions := None |} ]
                     _ eq_refl _)
                  [Scenario.to_other] no_destination [] eq_refl _ eq_refl).
    + eexists; reflexivity.
    + repeat constructor. eexists. split; [reflexivity|].
      repeat constructor. eexists; reflexivity.
    + repeat constructor. eexists; reflexivity.
Defined.







End Validation.

(* ===================================================================== *)
(** ** [scheduler.py]: a scheduled run                                    *)
(* ===================================================================== *)

Section Scheduled.
Import PyPath PyTime Eff PyOS Organizer Spec Further Scheduler.

(** X18. A scheduled run never lets an exception out: whatever
    [organize_files] does, [run_organization] returns, having logged its
    start and its completion, with the failure in between when there was
    one; the world it leaves is the one [organize_files], called without
    argument, left.  So the mode of a scheduled run is the configuration's
    [dry_run] key, and with that key set no entry of the file system is
    removed or changed. *)
Theorem run_organization_never_raises {cs : PyStr.Casing} (cfg : Config) (w : world) :
  exists records,
    run_organization cfg w
    = Returned records (outcome_world (organize_files cfg None w))
    /\ List.hd_error records = Some Started
    /\ List.last records Started = Completed
    /\ (forall e, In (Failed e) records
                  <-> exists w', organize_files cfg None w = Raised e w')
    /\ (dry_run cfg = Some true ->
        forall q n, w_fs w !! q = Some n ->
                    w_fs (outcome_world (run_organization cfg w)) !! q = Some n).
Proof.
  assert (Hrun : exists records,
             run_organization cfg w
             = Returned records (outcome_world (organize_files cfg None w))
             /\ List.hd_error records = Some Started
             /\ List.last records Started = Completed
             /\ (forall e, In (Failed e) records
                           <-> exists w', organize_files cfg None w = Raised e w')).
  { unfold run_organization, try_except_Exception. rewrite run_bind.
    destruct (organize_files cfg None w) as [r w'|e w'].
    - exists [Started; Completed].
      split; [reflexivity|]. split; [reflexivity|]. split; [reflexivity|].
      intros e. split.
      + simpl. intros [H|[H|[]]]; discriminate.
      + intros [w'' H]. discriminate.
    - exists [Started; Failed e; Completed].
      split; [reflexivity|]. split; [reflexivity|]. split; [reflexivity|].
      intros e'. split.
      + simpl. intros [H|[H|[H|[]]]]; try discriminate. injection H as <-. eauto.
      + intros [w'' H]. injection H as <- _. simpl. tauto. }
  destruct Hrun as (records & Hr & Hh & Hl & Hf).
  exists records. split; [exact Hr|]. split; [exact Hh|]. split; [exact Hl|].
  split; [exact Hf|].
  intros Hk q n Hq. rewrite Hr. simpl.
  assert (Heq : organize_files cfg None = organize_files cfg (Some true))
    by (unfold organize_files; now rewrite Hk).
  rewrite Heq. exact (grows_lookup _ _ _ _ (organize_files_dry_grows cfg w) Hq).
Qed.

Lemma run_organization_never_raises_witness :
  run_organization Scenario.type_then_year Scenario.two_files_world
  = Returned [Started; Failed FileNotFoundError; Completed]
             (outcome_world
                (organize_files Scenario.type_then_year None Scenario.two_files_world)).
Proof.
  destruct (run_organization_never_raises Scenario.type_then_year Scenario.two_files_world)
    as (records & Hr & _).
  rewrite Hr. f_equal.
  apply (f_equal (fun o => match o with Returned a _ => a | Raised _ _ => [] end)) in Hr.
  vm_compute in Hr. symmetry. exact Hr.
Defined.

End Scheduled.

(* ===================================================================== *)
(** ** [setup_logging] on the file system                                 *)
(* ===================================================================== *)

Section LogSetup.
Import PyPath PyTime Eff PyOS Organizer Spec Logging.

Lemma os_mkdir_grows (p : Path) : keeps grows (os_mkdir p).
Proof.
  intros w. unfold os_mkdir. run.
  destruct (w_fs w !! p) as [n|] eqn:E; [apply frame_refl|].
  destruct (w_fs w !! parent p) as [[t l|t]|]; try apply frame_refl.
  run. split; [|reflexivity]. simpl. now apply insert_subseteq.
Qed.

Lemma os_mkdir_present (p : Path) (w w' : world) :
  os_mkdir p w = Returned tt w' -> present w' p.
Proof.
  unfold os_mkdir. run.
  destruct (w_fs w !! p) as [n|]; [discriminate|].
  destruct (w_fs w !! parent p) as [[t l|t]|]; try discriminate.
  run. intros H. injection H as <-. eexists. simpl. apply lookup_insert_eq.
Qed.

Lemma makedirs_chain_grows (ps : list Path) : keeps grows (makedirs_chain ps).
Proof.
  induction ps as [|q rest IH]; cbn [makedirs_chain]; [frame|].
  apply keeps_bind; [typeclasses eauto | frame | intros [|]]; [exact IH|].
  apply keeps_bind; [typeclasses eauto | apply os_mkdir_grows | intros _; exact IH].
Qed.

Lemma makedirs_grows (p : Path) : keeps grows (makedirs p).
Proof.
  unfold makedirs.
  apply keeps_bind; [typeclasses eauto | apply makedirs_chain_grows | intros _].
  apply os_mkdir_grows.
Qed.

Lemma makedirs_present (p : Path) (w w' : world) :
  makedirs p w = Returned tt w' -> present w' p.
Proof.
  unfold makedirs. rewrite run_bind.
  destruct (makedirs_chain _ w) as [[] w1|e w1]; [|discriminate].
  apply os_mkdir_present.
Qed.

Lemma setup_logging_grows (key : option string) : keeps grows (setup_logging key).
Proof.
  unfold setup_logging. cbv zeta.
  apply keeps_bind; [typeclasses eauto | | intros _; apply open_append_grows].
  destruct (PyStr.truthy _); [|frame].
  apply keeps_bind; [typeclasses eauto | frame | intros e].
  destruct (negb e); [apply makedirs_grows | frame].
Qed.

Lemma open_append_regular (p : Path) (w w' : world) :
  open_append p w = Returned tt w' ->
  exists t, w_fs w' !! p = Some (File t false).
Proof.
  unfold open_append. run.
  destruct (w_fs w !! p) as [[t [|]|t]|] eqn:E; try discriminate.
  - run. intros H. injection H as <-. eauto.
  - destruct (w_fs w !! parent p) as [[t l|t]|]; try discriminate.
    run. intros H. injection H as <-. eexists. simpl. apply lookup_insert_eq.
Qed.

Lemma open_append_again (p : Path) (w : world) (t : datetime) :
  w_fs w !! p = Some (File t false) -> open_append p w = Returned tt w.
Proof. intros H. unfold open_append. run. now rewrite H. Qed.

(** X19. [setup_logging] only adds to the file system: whether it returns
    or raises, every entry that was there is still there, unchanged.  When
    it returns, the log file ([organizer.log] when the key is absent) is
    there as a regular file, and setting logging up again in the world it
    leaves changes nothing. *)
Theorem setup_logging_only_adds (key : option string) (w : world) :
  (forall q n, w_fs w !! q = Some n ->
               w_fs (outcome_world (setup_logging key w)) !! q = Some n)
  /\ (forall w', setup_logging key w = Returned tt w' ->
        (exists t, w_fs w' !! parse (default "organizer.log" key) = Some (File t false))
        /\ setup_logging key w' = Returned tt w').
Proof.
  split.
  - intros q n Hq. exact (grows_lookup _ _ _ _ (setup_logging_grows key w) Hq).
  - intros w'. unfold setup_logging. cbv zeta.
    set (log_file := default "organizer.log" key).
    set (log_dir := dirname log_file).
    rewrite !run_bind. intros Hrun.
    assert (Hdir : exists w1,
               open_append (parse log_file) w1 = Returned tt w'
               /\ (PyStr.truthy log_dir = true -> present w1 (parse log_dir))).
    { destruct (PyStr.truthy log_dir).
      - rewrite run_bind, run_exists in Hrun.
        destruct (bool_decide (is_Some (w_fs w !! parse log_dir))) eqn:Ee.
        + change (negb true) with false in Hrun. cbv iota in Hrun.
          rewrite run_ret in Hrun. exists w. split; [exact Hrun|].
          intros _. now apply bool_decide_eq_true_1 in Ee.
        + change (negb false) with true in Hrun. cbv iota in Hrun.
          destruct (makedirs (parse log_dir) w) as [[] w1|e w1] eqn:Em; [|discriminate].
          exists w1. split; [exact Hrun|]. intros _. exact (makedirs_present _ _ _ Em).
      - rewrite run_ret in Hrun. exists w. split; [exact Hrun | discriminate]. }
    destruct Hdir as (w1 & Hopen & Hpres).
    destruct (open_append_regular _ _ _ Hopen) as [t Ht].
    split; [eauto|].
    assert (Hfirst : (if PyStr.truthy log_dir
                      then exists_ (parse log_dir)
                           ≫= (fun e : bool =>
                                 if negb e then makedirs (parse log_dir) else mret tt)
                      else mret tt) w' = Returned tt w').
    { destruct (PyStr.truthy log_dir); [|reflexivity].
      rewrite run_bind, run_exists, bool_decide_eq_true_2; [reflexivity|].
      destruct (Hpres eq_refl) as [n Hn]. exists n.
      exact (grows_lookup _ _ _ _
               (eq_ind _ (fun o => grows w1 (outcome_world o))
                       (open_append_grows (parse log_file) w1) _ Hopen) Hn). }
    rewrite Hfirst. now apply (open_append_again _ _ t).
Qed.

Lemma setup_logging_only_adds_witness :
  let w := Scenario.world_of [ ([], Dir Scenario.long_ago) ] in
  exists w',
    setup_logging (Some "logs/organizer.log") w = Returned tt w'
    /\ w_fs w' !! ["logs"] = Some (Dir Scenario.clock)
    /\ w_fs w' !! ["logs"; "organizer.log"] = Some (File Scenario.clock false)
    /\ setup_logging (Some "logs/organizer.log") w' = Returned tt w'.
Proof.
  intros w.
  assert (Hrun : exists w', setup_logging (Some "logs/organizer.log") w = Returned tt w'
                            /\ w_fs w' !! ["logs"] = Some (Dir Scenario.clock)
                            /\ w_fs w' !! ["logs"; "organizer.log"]
                               = Some (File Scenario.clock false)).
  { eexists. split; [vm_compute; reflexivity|]. split; reflexivity. }
  destruct Hrun as (w' & Hrun & Hd & Hf).
  exists w'. split; [exact Hrun|]. split; [exact Hd|]. split; [exact Hf|].
  exact (proj2 (proj2 (setup_logging_only_adds (Some "logs/organizer.log") w) w' Hrun)).
Defined.

End LogSetup.
